(** * HomeNetworkMonitor: the node dispatch and execution engine

    A shallow embedding of the monitoring agent ([LOAD_NODES], [TaskTimer],
    [RUN_SSH_COMMANDS], [RUN_NETMIKO_CONFIG], [RUN_LOCAL], [save_log] and
    the loop of [main]) together with the properties of its specification.

    The program is sequential and talks to the outside world all the time
    (file system, YAML reader, clocks, sub-processes, SSH and Netmiko
    sessions, the console and the log file).  It is embedded as explicit
    state passing with Python exceptions:

    - the values the program handles are Python objects, [pyval];
    - the answers of the outside world are the fields of an [Env]
      record; every answer depends on the number of external calls
      made so far, so that the same call can answer differently at
      different times;
    - the program state is a [World]: the console, the lines of the log
      file and the number of external calls made so far;
    - a computation is a function [World -> result A * World] where the
      result is a value or a raised exception.

    Only exceptions deriving from Python's [Exception] are modelled;
    asynchronous signals ([KeyboardInterrupt], [SystemExit]) are not.
    Writing to the console, reading the clocks, [socket.gethostname] and
    [client.close] never fail, and a line reaches the log file whole or
    not at all. *)

From Stdlib Require Import Strings.String Strings.Ascii Strings.Byte.
From Stdlib Require Import Lists.List Arith.Arith Arith.PeanoNat.
From Stdlib Require Import ZArith.ZArith micromega.Lia Bool.Bool.
From Stdlib Require Import Sorting.Sorted.
Import ListNotations.

Local Open Scope string_scope.
Local Open Scope list_scope.

(* ================================================================== *)
(** ** Python values and exceptions *)
(* ================================================================== *)

(** The exception classes the program can meet.  [YAMLError] stands for
    the whole hierarchy below [yaml.YAMLError]; all the others are caught
    by [except Exception] only. *)
Inductive exn_class : Type :=
| YAMLError
| OSError
| AttributeError
| KeyError
| TypeError
| UnicodeDecodeError
| CalledProcessError
| SSHException
| NetMikoTimeoutException
| NetMikoAuthenticationException
| OtherException (name : string).

(** An exception: its class and its message, the text of [str(e)]. *)
Record exn : Type := mkExn { exn_cls : exn_class; exn_msg : string }.

Inductive result (A : Type) : Type :=
| Ok (a : A)
| Raise (e : exn).

Arguments Ok {A} a.
Arguments Raise {A} e.

(** The objects that [yaml.safe_load] builds and that the program
    builds itself.  A dict keeps its entries in insertion order. *)
#[local] Unset Elimination Schemes.
Inductive pyval : Type :=
| PNone
| PBool (b : bool)
| PInt (z : Z)
| PFloat (repr : string)
| PStr (s : string)
| PList (l : list pyval)
| PDict (d : list (pyval * pyval)).
#[local] Set Elimination Schemes.

Definition pydict : Type := list (pyval * pyval).

(** [key == k] for a string [k]: only a [str] equals a [str]. *)
Definition py_eq_str (v : pyval) (k : string) : bool :=
  match v with
  | PStr s => String.eqb s k
  | _ => false
  end.

(** [d.get(k)] on a dict, for a string key: the entry stored under [k]. *)
Fixpoint dict_get (d : pydict) (k : string) : option pyval :=
  match d with
  | [] => None
  | (key, v) :: rest => if py_eq_str key k then Some v else dict_get rest k
  end.

(** [d[k] = v] for a string key: the entry is replaced where it stands,
    or added at the end. *)
Fixpoint dict_set (d : pydict) (k : string) (v : pyval) : pydict :=
  match d with
  | [] => [(PStr k, v)]
  | (key, v0) :: rest =>
      if py_eq_str key k then (key, v) :: rest
      else (key, v0) :: dict_set rest k v
  end.

Definition is_dict (v : pyval) : bool :=
  match v with
  | PDict _ => true
  | _ => false
  end.

(** The name of the type of an object, as Python prints it. *)
Definition type_name (v : pyval) : string :=
  match v with
  | PNone => "NoneType"
  | PBool _ => "bool"
  | PInt _ => "int"
  | PFloat _ => "float"
  | PStr _ => "str"
  | PList _ => "list"
  | PDict _ => "dict"
  end.

Definition no_attribute (v : pyval) (attr : string) : exn :=
  mkExn AttributeError
        ("'" ++ type_name v ++ "' object has no attribute '" ++ attr ++ "'").

(** [d.get(k, default)] on a dict. *)
Definition dict_get_or (d : pydict) (k : string) (default : pyval) : pyval :=
  match dict_get d k with
  | Some v => v
  | None => default
  end.

(** [obj.get(k, default)]: defined on dicts only. *)
Definition py_get (obj : pyval) (k : string) (default : pyval) : result pyval :=
  match obj with
  | PDict d => Ok (dict_get_or d k default)
  | _ => Raise (no_attribute obj "get")
  end.

(** [obj[k]] for a string key. *)
Definition py_getitem (obj : pyval) (k : string) : result pyval :=
  match obj with
  | PDict d =>
      match dict_get d k with
      | Some v => Ok v
      | None => Raise (mkExn KeyError ("'" ++ k ++ "'"))
      end
  | PNone | PBool _ | PInt _ | PFloat _ =>
      Raise (mkExn TypeError
                   ("'" ++ type_name obj ++ "' object is not subscriptable"))
  | PStr _ =>
      Raise (mkExn TypeError "string indices must be integers")
  | PList _ =>
      Raise (mkExn TypeError "list indices must be integers or slices, not str")
  end.

(** The elements a [for] loop visits: the items of a list, the
    characters of a string, the keys of a dict. *)
Definition py_iter (obj : pyval) : result (list pyval) :=
  match obj with
  | PList l => Ok l
  | PDict d => Ok (map fst d)
  | PStr s =>
      Ok (map (fun c => PStr (String c EmptyString)) (list_ascii_of_string s))
  | _ =>
      Raise (mkExn TypeError
                   ("'" ++ type_name obj ++ "' object is not iterable"))
  end.

(* ================================================================== *)
(** ** Text: [str.strip] *)
(* ================================================================== *)

(** Python's [str.isspace] on the code points below 256. *)
Definition isspace (c : ascii) : bool :=
  let n := nat_of_ascii c in
  (((9 <=? n) && (n <=? 13)) || ((28 <=? n) && (n <=? 32))
   || (n =? 133) || (n =? 160))%nat.

Fixpoint lstrip (s : string) : string :=
  match s with
  | EmptyString => EmptyString
  | String c rest => if isspace c then lstrip rest else s
  end.

(** Drops the white space at the end: a character is kept when something
    that is kept follows it, or when it is not white space. *)
Fixpoint rstrip (s : string) : string :=
  match s with
  | EmptyString => EmptyString
  | String c rest =>
      match rstrip rest with
      | EmptyString => if isspace c then EmptyString else String c EmptyString
      | kept => String c kept
      end
  end.

Definition strip (s : string) : string := rstrip (lstrip s).

(** The line feed, ['\n']. *)
Definition newline : string := String (ascii_of_nat 10) "".

(* ================================================================== *)
(** ** Time stamps: [datetime.isoformat] *)
(* ================================================================== *)

(** A naive [datetime] object, as [datetime.utcnow()] returns it. *)
Record datetime : Type := mkDatetime {
  year : N;
  month : N;
  day : N;
  hour : N;
  minute : N;
  second : N;
  microsecond : N
}.

Definition is_leap (y : N) : bool :=
  (((y mod 4 =? 0) && negb (y mod 100 =? 0)) || (y mod 400 =? 0))%N.

Definition days_in_month (y m : N) : N :=
  (if m =? 2 then (if is_leap y then 29 else 28)
   else if (m =? 4) || (m =? 6) || (m =? 9) || (m =? 11) then 30
   else 31)%N.

(** The invariant of Python's [datetime] class. *)
Definition datetime_ok (dt : datetime) : bool :=
  ((1 <=? year dt) && (year dt <=? 9999)
   && (1 <=? month dt) && (month dt <=? 12)
   && (1 <=? day dt) && (day dt <=? days_in_month (year dt) (month dt))
   && (hour dt <? 24) && (minute dt <? 60) && (second dt <? 60)
   && (microsecond dt <? 1000000))%N.

Definition digit_char (n : N) : ascii := ascii_of_N (48 + n mod 10).

(** The [w] low-order decimal digits of [n], written in front of [acc]. *)
Fixpoint digits_fixed (w : nat) (n : N) (acc : string) : string :=
  match w with
  | O => acc
  | S w' => digits_fixed w' (n / 10) (String (digit_char n) acc)
  end.

Fixpoint num_digits_aux (fuel : nat) (n : N) : nat :=
  match fuel with
  | O => 1
  | S fuel' => if (n <? 10)%N then 1 else S (num_digits_aux fuel' (n / 10))
  end.

(** The number of decimal digits of [n]; [N.log2 n] divisions by ten
    are more than are needed. *)
Definition num_digits (n : N) : nat := num_digits_aux (N.to_nat (N.log2 n)) n.

(** ["%0wd" % n]: [n] in decimal, padded with zeros to at least [w]
    digits. *)
Definition fmt_0d (w : nat) (n : N) : string :=
  digits_fixed (Nat.max w (num_digits n)) n "".

(** [_format_time(hh, mm, ss, us, 'auto')]: the microseconds are left
    out when they are zero. *)
Definition format_time (hh mm ss us : N) : string :=
  fmt_0d 2 hh ++ ":" ++ fmt_0d 2 mm ++ ":" ++ fmt_0d 2 ss
  ++ (if (us =? 0)%N then "" else "." ++ fmt_0d 6 us).

(** [dt.isoformat()] of a naive datetime: no offset is written. *)
Definition isoformat (dt : datetime) : string :=
  fmt_0d 4 (year dt) ++ "-" ++ fmt_0d 2 (month dt) ++ "-" ++ fmt_0d 2 (day dt)
  ++ "T" ++ format_time (hour dt) (minute dt) (second dt) (microsecond dt).

(** [datetime.utcnow().isoformat() + "Z"], the time stamp of a result. *)
Definition timestamp_of (now : datetime) : string := isoformat now ++ "Z".

(* ================================================================== *)
(** ** The outside world *)
(* ================================================================== *)

(** What the program writes to the console.  The texts are kept in
    structured form: the values interpolated in each message are the
    arguments of the constructor. *)
Inductive console_event : Type :=
| NodesFileNotFound (file_path : string)
    (** [print(f"Error: Nodes file was not found at {file_path}")] *)
| YamlErrorIn (file_path : string) (e : exn)
    (** [print(f"YAML error in {file_path}: {e}")] *)
| UnexpectedLoadError (e : exn)
    (** [print(f"An unexpected error occurred while loading nodes: {e}")] *)
| Running (label : pyval)
    (** [print(f"[{self.label}] Running...", end='', flush=True)] *)
| Finished (ok : bool) (elapsed : Z)
    (** [cprint] of the green check mark ([ok = true]) or of the red
        cross, with the elapsed time *)
| ErrorProcessing (host_name : pyval) (e : exn).
    (** [cprint(f"Error processing {node.get('HOST_NAME')}: {e}", "red")] *)

(** The answers of the external collaborators.  The first argument of an
    answer that can change with time is the number of external calls made
    before it.  Clock readings are integers in the clock's own unit. *)
Record Env : Type := mkEnv {
  os_path_exists : nat -> string -> bool;
  open_read : nat -> string -> result string;
  yaml_safe_load : string -> result pyval;
  time_time : nat -> Z;
  datetime_utcnow : nat -> datetime;
  socket_gethostname : nat -> string;
  subprocess_check_output : nat -> string -> result (list byte);
  bytes_decode : list byte -> result string;
  ssh_connect : nat -> pyval -> pyval -> pyval -> result unit;
  ssh_exec_command : nat -> pyval -> result unit;
  ssh_recv_exit_status : nat -> result Z;
  netmiko_ConnectHandler :
    nat -> pyval -> pyval -> pyval -> pyval -> result unit;
  netmiko_send_config_set : nat -> pyval -> result string;
  netmiko_save_config : nat -> result unit;
  netmiko_disconnect : nat -> result unit;
  json_dumps : pyval -> result string;
  open_append : nat -> string -> result unit;
  file_write : nat -> string -> result unit
}.

(** The state of a run.  [stats] is the local variable of that name in
    the strategy that runs or that ran last: the result record under
    construction. *)
Record World : Type := mkWorld {
  console : list console_event;
  log_lines : list string;
  ticks : nat;
  stats : pydict
}.

Definition M (A : Type) : Type := World -> result A * World.

Definition ret {A : Type} (a : A) : M A := fun w => (Ok a, w).

Definition raise {A : Type} (e : exn) : M A := fun w => (Raise e, w).

Definition bind {A B : Type} (m : M A) (k : A -> M B) : M B :=
  fun w =>
    match m w with
    | (Ok a, w') => k a w'
    | (Raise e, w') => (Raise e, w')
    end.

Declare Scope py_scope.
Delimit Scope py_scope with py.
Notation "x <- m ;; k" := (bind m (fun x => k))
  (at level 61, m at next level, right associativity) : py_scope.
Notation "m ;; k" := (bind m (fun _ => k))
  (at level 61, right associativity) : py_scope.
Local Open Scope py_scope.

(** A pure operation that can raise. *)
Definition lift {A : Type} (r : result A) : M A := fun w => (r, w).

Definition tick (w : World) : World :=
  mkWorld (console w) (log_lines w) (S (ticks w)) (stats w).

(** An external call that always answers. *)
Definition ask {A : Type} (f : nat -> A) : M A :=
  fun w => (Ok (f (ticks w)), tick w).

(** An external call that can raise. *)
Definition call {A : Type} (f : nat -> result A) : M A :=
  fun w => (f (ticks w), tick w).

Definition emit (ev : console_event) : M unit :=
  fun w =>
    (Ok tt, mkWorld (console w ++ [ev]) (log_lines w) (ticks w) (stats w)).

Definition append_line (line : string) : M unit :=
  fun w =>
    (Ok tt, mkWorld (console w) (log_lines w ++ [line]) (ticks w) (stats w)).

(** [stats = d] *)
Definition new_stats (d : pydict) : M unit :=
  fun w => (Ok tt, mkWorld (console w) (log_lines w) (ticks w) d).

(** [stats[k] = v] *)
Definition set_stats (k : string) (v : pyval) : M unit :=
  fun w => (Ok tt, mkWorld (console w) (log_lines w) (ticks w)
                           (dict_set (stats w) k v)).

Definition get_stats : M pydict := fun w => (Ok (stats w), w).

(** [try: m  except Exception as e: h e] *)
Definition try_except {A : Type} (m : M A) (h : exn -> M A) : M A :=
  fun w =>
    match m w with
    | (Ok a, w') => (Ok a, w')
    | (Raise e, w') => h e w'
    end.

(** [try: m  finally: f]: [f] runs on both paths, and the outcome of [m]
    stands unless [f] raises itself. *)
Definition try_finally {A : Type} (m : M A) (f : M unit) : M A :=
  fun w =>
    match m w with
    | (r, w') =>
        match f w' with
        | (Ok _, w'') => (r, w'')
        | (Raise e, w'') => (Raise e, w'')
        end
    end.

(** [with cm: body]: [enter] runs first, [exit] runs on both paths with
    the exception of the body, if any.  When [exit] answers true the
    exception is swallowed, and the statement ends without a value. *)
Definition py_with {T A : Type}
    (enter : M T) (exit : T -> option exn -> M bool) (body : T -> M A)
  : M (option A) :=
  self <- enter ;;
  fun w =>
    match body self w with
    | (Ok a, w1) =>
        match exit self None w1 with
        | (Ok _, w2) => (Ok (Some a), w2)
        | (Raise e, w2) => (Raise e, w2)
        end
    | (Raise e, w1) =>
        match exit self (Some e) w1 with
        | (Ok true, w2) => (Ok None, w2)
        | (Ok false, w2) => (Raise e, w2)
        | (Raise e', w2) => (Raise e', w2)
        end
    end.

(* ================================================================== *)
(** ** The program *)
(* ================================================================== *)

Definition NODES_FILE : string := "nodes.yaml".
Definition LOG_FILE : string := "./dashboard/pi_cluster_log.jsonl".

Definition COMMANDS : list (string * string) :=
  [ ("hostname", "hostname");
    ("uptime", "uptime -p");
    ("cpu_usage", "top -bn1 | grep '%Cpu' | awk '{print $2 + $4}'");
    ("memory", "free -m | awk '/Mem:/ {print $2, $3}'");
    ("disk", "df -h / | awk 'NR==2 {print $2, $3, $5}'");
    ("ip_address", "hostname -I | awk '{print $1}'") ].

(** The [TaskTimer] object. *)
Record TaskTimer : Type := mkTaskTimer {
  label : pyval;
  start_time : option Z
}.

Section Program.

Variable E : Env.

(** *** [LOAD_NODES] *)

Definition LOAD_NODES (file_path : string) : M pyval :=
  found <- ask (fun t => os_path_exists E t file_path) ;;
  if negb found then
    emit (NodesFileNotFound file_path) ;;
    ret (PList [])
  else
    try_except
      (text <- call (fun t => open_read E t file_path) ;;
       data <- lift (yaml_safe_load E text) ;;
       lift (py_get data "nodes" (PList [])))
      (fun e =>
         match exn_cls e with
         | YAMLError =>
             emit (YamlErrorIn file_path e) ;;
             ret (PList [])
         | _ =>
             emit (UnexpectedLoadError e) ;;
             ret (PList [])
         end).

(** *** [TaskTimer] *)

Definition TaskTimer_init (label : pyval) : TaskTimer :=
  mkTaskTimer label None.

Definition TaskTimer_enter (self : TaskTimer) : M TaskTimer :=
  now <- ask (time_time E) ;;
  emit (Running (label self)) ;;
  ret (mkTaskTimer (label self) (Some now)).

(** [__exit__] ends without a [return]: its answer is [None], which is
    false. *)
Definition TaskTimer_exit (self : TaskTimer) (exc : option exn) : M bool :=
  now <- ask (time_time E) ;;
  match start_time self with
  | None =>
      raise (mkExn TypeError
               "unsupported operand type(s) for -: 'float' and 'NoneType'")
  | Some t0 =>
      let elapsed := (now - t0)%Z in
      match exc with
      | None => emit (Finished true elapsed)
      | Some _ => emit (Finished false elapsed)
      end ;;
      ret false
  end.

(** [with TaskTimer(label): body] *)
Definition with_TaskTimer {A : Type} (label : pyval) (body : M A)
  : M (option A) :=
  py_with (TaskTimer_enter (TaskTimer_init label)) TaskTimer_exit
          (fun _ => body).

(** What a function answers whose body is a [with] statement ending in
    [return stats]: [None] when the statement swallowed an exception. *)
Definition returned (r : option pydict) : pyval :=
  match r with
  | Some d => PDict d
  | None => PNone
  end.

(** *** [RUN_SSH_COMMANDS] *)

Fixpoint ssh_exec_all (cmds : list pyval) : M unit :=
  match cmds with
  | [] => ret tt
  | cmd :: rest =>
      call (fun t => ssh_exec_command E t cmd) ;;
      call (ssh_recv_exit_status E) ;;
      ssh_exec_all rest
  end.

(** The body of the [try] statement. *)
Definition ssh_try (node : pyval) : M unit :=
  host <- lift (py_getitem node "HOST_NAME") ;;
  user <- lift (py_getitem node "USER_NAME") ;;
  password <- lift (py_getitem node "PASSWORD") ;;
  call (fun t => ssh_connect E t host user password) ;;
  cmds <- lift (py_get node "COMMANDS" (PList [])) ;;
  items <- lift (py_iter cmds) ;;
  ssh_exec_all items ;;
  set_stats "status" (PStr "success").

(** [except Exception as e: stats["status"] = f"fail: {e}"; raise] *)
Definition record_and_reraise {A : Type} (e : exn) : M A :=
  set_stats "status" (PStr ("fail: " ++ exn_msg e)) ;;
  raise e.

(** [client.close()]: an external call that does not fail. *)
Definition ssh_close : M unit := ask (fun _ => tt).

(** Building the client object and setting its host-key policy have no
    effect that the program observes; they are left out. *)
Definition RUN_SSH_COMMANDS (node : pyval) : M pyval :=
  label <- lift (py_get node "HOST_NAME" (PStr "SSH Node")) ;;
  r <- with_TaskTimer label
         (host <- lift (py_get node "HOST_NAME" (PStr "unknown")) ;;
          now <- ask (datetime_utcnow E) ;;
          new_stats [(PStr "host", host);
                     (PStr "timestamp", PStr (timestamp_of now))] ;;
          try_finally
            (try_except (ssh_try node) record_and_reraise)
            ssh_close ;;
          get_stats) ;;
  ret (returned r).

(** *** [RUN_NETMIKO_CONFIG] *)

Definition netmiko_try (node : pyval)
    (device_type host username password : pyval) : M unit :=
  call (fun t =>
          netmiko_ConnectHandler E t device_type host username password) ;;
  cmds <- lift (py_get node "CONFIG_COMMANDS" (PList [])) ;;
  call (fun t => netmiko_send_config_set E t cmds) ;;
  call (netmiko_save_config E) ;;
  call (netmiko_disconnect E) ;;
  set_stats "status" (PStr "success").

Definition RUN_NETMIKO_CONFIG (node : pyval) : M pyval :=
  label <- lift (py_get node "HOST_NAME" (PStr "Netmiko Node")) ;;
  r <- with_TaskTimer label
         (device_type <- lift (py_get node "DEVICE_TYPE" PNone) ;;
          host <- lift (py_get node "HOST_NAME" PNone) ;;
          username <- lift (py_get node "USER_NAME" PNone) ;;
          password <- lift (py_get node "PASSWORD" PNone) ;;
          host' <- lift (py_get node "HOST_NAME" (PStr "unknown")) ;;
          now <- ask (datetime_utcnow E) ;;
          new_stats [(PStr "host", host');
                     (PStr "timestamp", PStr (timestamp_of now))] ;;
          try_except
            (netmiko_try node device_type host username password)
            record_and_reraise ;;
          get_stats) ;;
  ret (returned r).

(** *** [RUN_LOCAL] *)

(** The loop over [COMMANDS.items()]. *)
Fixpoint local_metrics (items : list (string * string)) : M unit :=
  match items with
  | [] => ret tt
  | (key, cmd) :: rest =>
      try_except
        (raw <- call (fun t => subprocess_check_output E t cmd) ;;
         text <- lift (bytes_decode E raw) ;;
         set_stats key (PStr (strip text)))
        (fun e => set_stats key (PStr ("Error: " ++ exn_msg e))) ;;
      local_metrics rest
  end.

Definition RUN_LOCAL : M pyval :=
  r <- with_TaskTimer (PStr "Localhost")
         (host <- ask (socket_gethostname E) ;;
          now <- ask (datetime_utcnow E) ;;
          new_stats [(PStr "host", PStr host);
                     (PStr "timestamp", PStr (timestamp_of now))] ;;
          local_metrics COMMANDS ;;
          set_stats "status" (PStr "success") ;;
          get_stats) ;;
  ret (returned r).

(** *** [save_log] *)

(** Opening the file, rendering the record and writing can each raise;
    the line is in the file once the write has returned. *)
Definition save_log (stat : pyval) : M unit :=
  call (fun t => open_append E t LOG_FILE) ;;
  text <- lift (json_dumps E stat) ;;
  let line := (text ++ newline)%string in
  call (fun t => file_write E t line) ;;
  append_line line.

(** *** [main] *)

(** The [if]/[elif]/[else] of the loop: the strategy of a node. *)
Definition dispatch (node : pyval) : M pyval :=
  kind <- lift (py_get node "DEVICE_TYPE" PNone) ;;
  if py_eq_str kind "local" then RUN_LOCAL
  else
    kind' <- lift (py_get node "DEVICE_TYPE" PNone) ;;
    if py_eq_str kind' "ssh" then RUN_SSH_COMMANDS node
    else RUN_NETMIKO_CONFIG node.

(** One turn of the loop, on the list [all_stats] so far. *)
Definition loop_body (node : pyval) (all_stats : list pyval)
  : M (list pyval) :=
  try_except
    (stat <- dispatch node ;;
     save_log stat ;;
     ret (all_stats ++ [stat]))
    (fun e =>
       host_name <- lift (py_get node "HOST_NAME" PNone) ;;
       emit (ErrorProcessing host_name e) ;;
       ret all_stats).

Fixpoint main_loop (nodes : list pyval) (all_stats : list pyval)
  : M (list pyval) :=
  match nodes with
  | [] => ret all_stats
  | node :: rest =>
      all_stats' <- loop_body node all_stats ;;
      main_loop rest all_stats'
  end.

(** [main()], answering the list [all_stats] it has built when it ends. *)
Definition main : M (list pyval) :=
  nodes <- LOAD_NODES NODES_FILE ;;
  items <- lift (py_iter nodes) ;;
  main_loop items [].

End Program.

(* ================================================================== *)
(** ** A sample world *)
(* ================================================================== *)

(** A small fleet and an outside world for it: a local node, an SSH node
    whose host does not answer, a managed switch, and an SSH node that
    answers. *)
Module Sample.

Definition local_record : pydict :=
  [(PStr "HOST_NAME", PStr "pi"); (PStr "DEVICE_TYPE", PStr "local")].

Definition local_node : pyval := PDict local_record.

Definition dead_record : pydict :=
  [(PStr "HOST_NAME", PStr "10.0.0.9");
   (PStr "DEVICE_TYPE", PStr "ssh");
   (PStr "USER_NAME", PStr "admin");
   (PStr "PASSWORD", PStr "secret");
   (PStr "COMMANDS", PList [PStr "uptime"])].

Definition dead_node : pyval := PDict dead_record.

Definition switch_record : pydict :=
  [(PStr "HOST_NAME", PStr "10.0.0.2");
   (PStr "DEVICE_TYPE", PStr "cisco_ios");
   (PStr "USER_NAME", PStr "admin");
   (PStr "PASSWORD", PStr "secret");
   (PStr "CONFIG_COMMANDS", PList [PStr "ntp server 10.0.0.1"])].

Definition switch_node : pyval := PDict switch_record.

Definition ssh_record : pydict :=
  [(PStr "HOST_NAME", PStr "10.0.0.3");
   (PStr "DEVICE_TYPE", PStr "ssh");
   (PStr "USER_NAME", PStr "admin");
   (PStr "PASSWORD", PStr "secret");
   (PStr "COMMANDS", PList [PStr "uptime"; PStr "df -h"])].

Definition ssh_node : pyval := PDict ssh_record.

Definition fleet : list pyval := [local_node; dead_node; switch_node; ssh_node].

Definition document : pyval := PDict [(PStr "nodes", PList fleet)].

(** A rendering of a flat record of strings, enough for the sample. *)
Fixpoint render_fields (d : pydict) : string :=
  match d with
  | [] => ""
  | (PStr k, PStr v) :: rest => k ++ "=" ++ v ++ ";" ++ render_fields rest
  | _ :: rest => render_fields rest
  end.

Definition render (v : pyval) : result string :=
  match v with
  | PDict d => Ok ("{" ++ render_fields d ++ "}")%string
  | _ => Raise (mkExn TypeError "Object is not JSON serializable")
  end.

Definition noon : datetime := mkDatetime 2024 5 17 12 0 0 0.

Definition env : Env := {|
  os_path_exists := fun _ path =>
    String.eqb path NODES_FILE || String.eqb path "empty.yaml";
  open_read := fun _ path =>
    if String.eqb path NODES_FILE then Ok "nodes: [...]" else Ok "";
  yaml_safe_load := fun text =>
    if String.eqb text "" then Ok PNone else Ok document;
  time_time := fun t => (1000 + 7 * Z.of_nat t)%Z;
  datetime_utcnow := fun t =>
    mkDatetime 2024 5 17 12 0 0 ((250 * N.of_nat t) mod 1000000);
  socket_gethostname := fun _ => "pi";
  subprocess_check_output := fun _ cmd =>
    if String.eqb cmd "hostname"
    then Ok (list_byte_of_string (" pi" ++ newline))
    else if String.eqb cmd "uptime -p"
    then Raise (mkExn CalledProcessError
                  "Command 'uptime -p' returned non-zero exit status 1.")
    else Ok (list_byte_of_string "42");
  bytes_decode := fun raw => Ok (string_of_list_byte raw);
  ssh_connect := fun _ host _ _ =>
    if py_eq_str host "10.0.0.9"
    then Raise (mkExn OSError "[Errno 113] No route to host")
    else Ok tt;
  ssh_exec_command := fun _ _ => Ok tt;
  ssh_recv_exit_status := fun _ => Ok 0%Z;
  netmiko_ConnectHandler := fun _ _ _ _ _ => Ok tt;
  netmiko_send_config_set := fun _ _ => Ok "";
  netmiko_save_config := fun _ => Ok tt;
  netmiko_disconnect := fun _ => Ok tt;
  json_dumps := render;
  open_append := fun _ _ => Ok tt;
  file_write := fun _ _ => Ok tt
|}.

(** The same world with a clock that stands at noon sharp. *)
Definition env_noon : Env := {|
  os_path_exists := os_path_exists env;
  open_read := open_read env;
  yaml_safe_load := yaml_safe_load env;
  time_time := time_time env;
  datetime_utcnow := fun _ => noon;
  socket_gethostname := socket_gethostname env;
  subprocess_check_output := subprocess_check_output env;
  bytes_decode := bytes_decode env;
  ssh_connect := ssh_connect env;
  ssh_exec_command := ssh_exec_command env;
  ssh_recv_exit_status := ssh_recv_exit_status env;
  netmiko_ConnectHandler := netmiko_ConnectHandler env;
  netmiko_send_config_set := netmiko_send_config_set env;
  netmiko_save_config := netmiko_save_config env;
  netmiko_disconnect := netmiko_disconnect env;
  json_dumps := json_dumps env;
  open_append := open_append env;
  file_write := file_write env
|}.

Definition start : World := mkWorld [] [] 0 [].

(** The run on the sample world after its first node: the list of
    results and the state. *)
Definition after_local : list pyval * World :=
  Eval vm_compute in
    match main_loop env [local_node] [] start with
    | (Ok all_stats, w) => (all_stats, w)
    | (Raise _, w) => ([], w)
    end.

(** The state in which the strategy of the second node gives up, and
    the exception it raises. *)
Definition dead_end : World :=
  Eval vm_compute in snd (dispatch env dead_node (snd after_local)).

Definition no_route : exn := mkExn OSError "[Errno 113] No route to host".

End Sample.

(** Variations of the sample world in which something goes wrong. *)
Module Faults.

(** A world with other answers of the file system and of the YAML
    reader. *)
Definition with_files
    (found : nat -> string -> bool) (read : nat -> string -> result string)
    (load : string -> result pyval) (e : Env) : Env := {|
  os_path_exists := found;
  open_read := read;
  yaml_safe_load := load;
  time_time := time_time e;
  datetime_utcnow := datetime_utcnow e;
  socket_gethostname := socket_gethostname e;
  subprocess_check_output := subprocess_check_output e;
  bytes_decode := bytes_decode e;
  ssh_connect := ssh_connect e;
  ssh_exec_command := ssh_exec_command e;
  ssh_recv_exit_status := ssh_recv_exit_status e;
  netmiko_ConnectHandler := netmiko_ConnectHandler e;
  netmiko_send_config_set := netmiko_send_config_set e;
  netmiko_save_config := netmiko_save_config e;
  netmiko_disconnect := netmiko_disconnect e;
  json_dumps := json_dumps e;
  open_append := open_append e;
  file_write := file_write e
|}.

(** A world with another log file. *)
Definition with_sink
    (open : nat -> string -> result unit)
    (write : nat -> string -> result unit) (e : Env) : Env := {|
  os_path_exists := os_path_exists e;
  open_read := open_read e;
  yaml_safe_load := yaml_safe_load e;
  time_time := time_time e;
  datetime_utcnow := datetime_utcnow e;
  socket_gethostname := socket_gethostname e;
  subprocess_check_output := subprocess_check_output e;
  bytes_decode := bytes_decode e;
  ssh_connect := ssh_connect e;
  ssh_exec_command := ssh_exec_command e;
  ssh_recv_exit_status := ssh_recv_exit_status e;
  netmiko_ConnectHandler := netmiko_ConnectHandler e;
  netmiko_send_config_set := netmiko_send_config_set e;
  netmiko_save_config := netmiko_save_config e;
  netmiko_disconnect := netmiko_disconnect e;
  json_dumps := json_dumps e;
  open_append := open;
  file_write := write
|}.

(** A world with other remote hosts. *)
Definition with_remote
    (exec : nat -> pyval -> result unit) (status : nat -> result Z)
    (send : nat -> pyval -> result string) (e : Env) : Env := {|
  os_path_exists := os_path_exists e;
  open_read := open_read e;
  yaml_safe_load := yaml_safe_load e;
  time_time := time_time e;
  datetime_utcnow := datetime_utcnow e;
  socket_gethostname := socket_gethostname e;
  subprocess_check_output := subprocess_check_output e;
  bytes_decode := bytes_decode e;
  ssh_connect := ssh_connect e;
  ssh_exec_command := exec;
  ssh_recv_exit_status := status;
  netmiko_ConnectHandler := netmiko_ConnectHandler e;
  netmiko_send_config_set := send;
  netmiko_save_config := netmiko_save_config e;
  netmiko_disconnect := netmiko_disconnect e;
  json_dumps := json_dumps e;
  open_append := open_append e;
  file_write := file_write e
|}.

Definition disk_full : exn :=
  mkExn OSError "[Errno 28] No space left on device".

(** The log file opens but cannot be written. *)
Definition env_disk_full : Env :=
  with_sink (fun _ _ => Ok tt) (fun _ _ => Raise disk_full) Sample.env.

Definition bad_yaml : exn :=
  mkExn YAMLError "mapping values are not allowed here".

(** The nodes file is not YAML. *)
Definition env_bad_yaml : Env :=
  with_files (fun _ _ => true) (fun _ _ => Ok "a: b: c")
             (fun _ => Raise bad_yaml) Sample.env.

(** The nodes file holds a list at top level, not a mapping. *)
Definition env_top_level_list : Env :=
  with_files (fun _ _ => true) (fun _ _ => Ok "- a")
             (fun _ => Ok (PList [PStr "a"])) Sample.env.

(** The nodes file holds the key "nodes" with nothing under it. *)
Definition env_nodes_null : Env :=
  with_files (fun _ _ => true) (fun _ _ => Ok "nodes:")
             (fun _ => Ok (PDict [(PStr "nodes", PNone)])) Sample.env.

Definition broken_pipe : exn := mkExn SSHException "SSH session not active".

(** The remote shell runs "uptime" and breaks on any other command;
    commands that run end with exit status 1. *)
Definition env_broken_shell : Env :=
  with_remote
    (fun _ cmd => if py_eq_str cmd "uptime" then Ok tt else Raise broken_pipe)
    (fun _ => Ok 1%Z)
    (netmiko_send_config_set Sample.env) Sample.env.

Definition refused : exn :=
  mkExn (OtherException "ConfigInvalidException") "Invalid input detected".

(** The managed device refuses the configuration. *)
Definition env_config_refused : Env :=
  with_remote (ssh_exec_command Sample.env) (ssh_recv_exit_status Sample.env)
              (fun _ _ => Raise refused) Sample.env.

(** An SSH node without a password. *)
Definition no_password_record : pydict :=
  [(PStr "HOST_NAME", PStr "10.0.0.4");
   (PStr "DEVICE_TYPE", PStr "ssh");
   (PStr "USER_NAME", PStr "admin")].

(** An SSH node with one command, on a host that answers. *)
Definition uptime_record : pydict :=
  [(PStr "HOST_NAME", PStr "10.0.0.3");
   (PStr "DEVICE_TYPE", PStr "ssh");
   (PStr "USER_NAME", PStr "admin");
   (PStr "PASSWORD", PStr "secret");
   (PStr "COMMANDS", PList [PStr "uptime"])].

(** The local strategy on the full disk: its result, the state it
    leaves, and the state after the sink has given up. *)
Definition local_stat : pyval :=
  Eval vm_compute in
    match fst (dispatch env_disk_full Sample.local_node Sample.start) with
    | Ok stat => stat
    | Raise _ => PNone
    end.

Definition after_strategy : World :=
  Eval vm_compute in
    snd (dispatch env_disk_full Sample.local_node Sample.start).

Definition after_sink : World :=
  Eval vm_compute in snd (save_log env_disk_full local_stat after_strategy).

(** Two readings of the clock, a microsecond apart. *)
Definition just_after_noon : datetime := mkDatetime 2024 5 17 12 0 0 1.

End Faults.

(* ================================================================== *)
(** ** Observations on a run *)
(* ================================================================== *)

(** The states and readings that the properties below speak about. *)
Section Observations.

Variable E : Env.

(** The state in which the wrapped work starts: the clock was read once
    and the running indicator is on the console. *)
Definition entered (label : pyval) (w : World) : World :=
  mkWorld (console w ++ [Running label]) (log_lines w) (S (ticks w)) (stats w).

(** The state after [__exit__]: the clock was read again and the success
    or failure indicator is on the console, with the time elapsed since
    the reading [t0] of [__enter__]. *)
Definition exited (ok : bool) (t0 : Z) (w : World) : World :=
  mkWorld (console w ++ [Finished ok (time_time E (ticks w) - t0)])
          (log_lines w) (S (ticks w)) (stats w).

(** The state in which the [try] statement of a remote strategy starts:
    the timer was entered, the clock was read for the time stamp, and
    [stats] holds the host and the time stamp. *)
Definition try_entry (label host : pyval) (w : World) : World :=
  mkWorld (console w ++ [Running label]) (log_lines w) (S (S (ticks w)))
          [(PStr "host", host);
           (PStr "timestamp",
            PStr (timestamp_of (datetime_utcnow E (S (ticks w)))))].

(** The text stored for a metric whose command runs as external call
    number [t]. *)
Definition metric_text (t : nat) (cmd : string) : string :=
  match subprocess_check_output E t cmd with
  | Ok raw =>
      match bytes_decode E raw with
      | Ok text => strip text
      | Raise e => "Error: " ++ exn_msg e
      end
  | Raise e => "Error: " ++ exn_msg e
  end.

(** The state after the error notice of the loop of [main]. *)
Definition noticed (host_name : pyval) (e : exn) (w : World) : World :=
  mkWorld (console w ++ [ErrorProcessing host_name e])
          (log_lines w) (ticks w) (stats w).

(** The line of the log that holds the text [text]. *)
Definition log_line (text : string) : string := text ++ newline.

(** A result record as the sink takes it: a dict whose status is
    "success", together with the text the log receives for it. *)
Definition logged_success (stat : pyval) (text : string) : Prop :=
  json_dumps E stat = Ok text
  /\ exists d, stat = PDict d /\ dict_get d "status" = Some (PStr "success").

(** The state in which the loop of [main], started in [w], reaches the
    node number [i] of [nodes]. *)
Definition state_before (nodes : list pyval) (i : nat) (w : World) : World :=
  snd (main_loop E (firstn i nodes) [] w).

(** [stat] is the result of the node number [i]: its strategy returned
    [stat] in the state in which the loop reached the node, and
    [save_log] then took [stat] and returned, which left the loop in the
    state in which it reaches the next node. *)
Definition produced_by (nodes : list pyval) (w : World)
    (i : nat) (stat : pyval) : Prop :=
  exists node wa,
    nth_error nodes i = Some node
    /\ dispatch E node (state_before nodes i w) = (Ok stat, wa)
    /\ save_log E stat wa = (Ok tt, state_before nodes (S i) w).

End Observations.

(** A computation that leaves the log file as it is. *)
Definition keeps_log {A : Type} (m : M A) : Prop :=
  forall w, log_lines (snd (m w)) = log_lines w.

(** A computation that only consumes external calls: console, log and
    [stats] are left as they are. *)
Definition quiet {A : Type} (m : M A) : Prop :=
  forall w,
    console (snd (m w)) = console w
    /\ log_lines (snd (m w)) = log_lines w
    /\ stats (snd (m w)) = stats w.

(** A computation that only adds lines at the end of the log file. *)
Definition extends_log {A : Type} (m : M A) : Prop :=
  forall w, exists added, log_lines (snd (m w)) = log_lines w ++ added.

(** A string of white space only. *)
Fixpoint all_space (s : string) : bool :=
  match s with
  | EmptyString => true
  | String c rest => isspace c && all_space rest
  end.

(** Whether a computation returned. *)
Definition returned_normally {A : Type} (r : result A) : bool :=
  match r with
  | Ok _ => true
  | Raise _ => false
  end.

(** *** Reading a time stamp back *)

Definition digit_value (c : ascii) : option N :=
  let n := N_of_ascii c in
  if ((48 <=? n) && (n <=? 57))%N then Some (n - 48)%N else None.

(** Reads exactly [w] digits. *)
Fixpoint take_digits (w : nat) (s : string) (acc : N) : option (N * string) :=
  match w with
  | O => Some (acc, s)
  | S w' =>
      match s with
      | String c rest =>
          match digit_value c with
          | Some d => take_digits w' rest (10 * acc + d)%N
          | None => None
          end
      | EmptyString => None
      end
  end.

(** The number of digits at the head of a string. *)
Fixpoint count_digits (s : string) : nat :=
  match s with
  | String c rest =>
      match digit_value c with
      | Some _ => S (count_digits rest)
      | None => O
      end
  | EmptyString => O
  end.

Inductive field : Type :=
| Digits (w : nat)
| Lit (c : ascii).

(** Reads a string against a pattern of fixed-width numbers and literal
    characters; answers the numbers and the rest of the string. *)
Fixpoint scan (pat : list field) (s : string) : option (list N * string) :=
  match pat with
  | [] => Some ([], s)
  | Digits w :: pat' =>
      match take_digits w s 0 with
      | Some (n, rest) =>
          match scan pat' rest with
          | Some (ns, rest') => Some (n :: ns, rest')
          | None => None
          end
      | None => None
      end
  | Lit c :: pat' =>
      match s with
      | String c' rest => if Ascii.eqb c c' then scan pat' rest else None
      | EmptyString => None
      end
  end.

(** [YYYY-MM-DDThh:mm:ss] *)
Definition iso_seconds : list field :=
  [Digits 4; Lit "-"; Digits 2; Lit "-"; Digits 2; Lit "T";
   Digits 2; Lit ":"; Digits 2; Lit ":"; Digits 2]%char.

(** The microseconds that a fraction of [k] digits of value [v] stands
    for. *)
Definition fraction_us (v : N) (k : nat) : N :=
  if (k <=? 6)%nat then (v * 10 ^ N.of_nat (6 - k))%N
  else (v / 10 ^ N.of_nat (k - 6))%N.

(** Reads an ISO-8601 time stamp in UTC, [YYYY-MM-DDThh:mm:ss[.f+]Z]:
    answers the instant and the number of digits of the fraction of a
    second, none when the string is not such a time stamp or when the
    date or the time of day does not exist. *)
Definition parse_timestamp (s : string) : option (datetime * nat) :=
  match scan iso_seconds s with
  | Some ([y; mo; d; h; mi; se], rest) =>
      match rest with
      | String c frac =>
          if Ascii.eqb c "Z"%char then
            match frac with
            | EmptyString =>
                let dt := mkDatetime y mo d h mi se 0 in
                if datetime_ok dt then Some (dt, O) else None
            | _ => None
            end
          else if Ascii.eqb c "."%char then
            let k := count_digits frac in
            match take_digits k frac 0 with
            | Some (v, String z EmptyString) =>
                let dt := mkDatetime y mo d h mi se (fraction_us v k) in
                if Ascii.eqb z "Z"%char && (1 <=? k)%nat && datetime_ok dt
                then Some (dt, k) else None
            | _ => None
            end
          else None
      | EmptyString => None
      end
  | _ => None
  end.

(** A UTC ISO-8601 time stamp written to the millisecond or finer: the
    fraction of a second has three digits or more. *)
Definition millisecond_or_better (s : string) : bool :=
  match parse_timestamp s with
  | Some (_, k) => (3 <=? k)%nat
  | None => false
  end.


(* ================================================================== *)
(** ** Facts about dicts *)
(* ================================================================== *)

Lemma py_eq_str_unique (key : pyval) (k k' : string) :
  py_eq_str key k = true -> py_eq_str key k' = true -> k = k'.
Proof.
  destruct key; simpl; try discriminate.
  intros H H'. apply String.eqb_eq in H, H'. congruence.
Qed.

Lemma dict_get_set_same (d : pydict) (k : string) (v : pyval) :
  dict_get (dict_set d k v) k = Some v.
Proof.
  induction d as [|[key v0] rest IH]; simpl.
  - now rewrite String.eqb_refl.
  - destruct (py_eq_str key k) eqn:Hk; simpl; now rewrite Hk.
Qed.

Lemma dict_get_set_other (d : pydict) (k k' : string) (v : pyval) :
  k <> k' -> dict_get (dict_set d k v) k' = dict_get d k'.
Proof.
  intros Hne. induction d as [|[key v0] rest IH]; simpl.
  - destruct (String.eqb k k') eqn:Hk; [|reflexivity].
    apply String.eqb_eq in Hk. contradiction.
  - destruct (py_eq_str key k) eqn:Hk; simpl.
    + destruct (py_eq_str key k') eqn:Hk'; [|reflexivity].
      elim Hne. eapply py_eq_str_unique; eassumption.
    + now rewrite IH.
Qed.

(* ================================================================== *)
(** ** Trimmed text *)
(* ================================================================== *)

Lemma lstrip_length (s : string) : String.length (lstrip s) <= String.length s.
Proof.
  induction s as [|c rest IH]; simpl; [lia|].
  destruct (isspace c); simpl; lia.
Qed.

(** A string that [lstrip] leaves alone does not start with white
    space. *)
Lemma lstrip_fixed_head (c : ascii) (rest : string) :
  lstrip (String c rest) = String c rest -> isspace c = false.
Proof.
  simpl. destruct (isspace c); [|reflexivity].
  intros H. pose proof (lstrip_length rest) as Hlen.
  rewrite H in Hlen. simpl in Hlen. lia.
Qed.

Lemma lstrip_idempotent (s : string) : lstrip (lstrip s) = lstrip s.
Proof.
  induction s as [|c rest IH]; simpl; [reflexivity|].
  destruct (isspace c) eqn:Hc; [exact IH|].
  simpl. now rewrite Hc.
Qed.

Lemma rstrip_idempotent (s : string) : rstrip (rstrip s) = rstrip s.
Proof.
  induction s as [|c rest IH]; simpl; [reflexivity|].
  destruct (rstrip rest) as [|c' kept] eqn:Hrest.
  - destruct (isspace c) eqn:Hc; simpl; [reflexivity|]. now rewrite Hc.
  - cbn [rstrip]. cbn [rstrip] in IH. rewrite IH. reflexivity.
Qed.

Lemma lstrip_rstrip (s : string) :
  lstrip s = s -> lstrip (rstrip s) = rstrip s.
Proof.
  destruct s as [|c rest]; [reflexivity|].
  intros H. apply lstrip_fixed_head in H. simpl.
  destruct (rstrip rest); rewrite ?H; simpl; now rewrite H.
Qed.

(** [strip] answers a string with no white space at either end: both
    [lstrip] and [rstrip] leave it alone. *)
Lemma strip_trimmed (s : string) :
  lstrip (strip s) = strip s /\ rstrip (strip s) = strip s.
Proof.
  unfold strip. split.
  - apply lstrip_rstrip, lstrip_idempotent.
  - apply rstrip_idempotent.
Qed.

(* ================================================================== *)
(** ** The node registry: [LOAD_NODES] *)
(* ================================================================== *)

Section Registry.

Variable E : Env.

(** The three ways the load can end: the file is missing, the file is
    read and parsed, or something went wrong on the way. *)
Lemma LOAD_NODES_missing (file_path : string) (w : World) :
  os_path_exists E (ticks w) file_path = false ->
  LOAD_NODES E file_path w =
  (Ok (PList []),
   mkWorld (console w ++ [NodesFileNotFound file_path])
           (log_lines w) (S (ticks w)) (stats w)).
Proof.
  intros H. unfold LOAD_NODES, bind, ask, emit, ret. simpl. now rewrite H.
Qed.

Lemma LOAD_NODES_parsed (file_path text : string) (data : pyval) (w : World) :
  os_path_exists E (ticks w) file_path = true ->
  open_read E (S (ticks w)) file_path = Ok text ->
  yaml_safe_load E text = Ok data ->
  LOAD_NODES E file_path w =
  match py_get data "nodes" (PList []) with
  | Ok v => (Ok v, tick (tick w))
  | Raise e =>
      (Ok (PList []),
       mkWorld (console w ++ [UnexpectedLoadError e])
               (log_lines w) (S (S (ticks w))) (stats w))
  end.
Proof.
  intros Hex Hop Hy.
  unfold LOAD_NODES, bind, ask, try_except, call, lift, emit, ret. simpl.
  rewrite Hex. simpl. rewrite Hop, Hy.
  destruct (py_get data "nodes" (PList [])) as [v|e] eqn:Hg; [reflexivity|].
  assert (Hcls : exn_cls e = AttributeError).
  { unfold py_get in Hg. destruct data; inversion Hg; reflexivity. }
  now rewrite Hcls.
Qed.

Lemma LOAD_NODES_never_raises (file_path : string) (w : World) :
  exists v w', LOAD_NODES E file_path w = (Ok v, w').
Proof.
  unfold LOAD_NODES, bind, ask, try_except, call, lift, emit, ret. simpl.
  destruct (os_path_exists E (ticks w) file_path); simpl; [|eauto].
  destruct (open_read E (S (ticks w)) file_path) as [text|e].
  - destruct (yaml_safe_load E text) as [data|e].
    + destruct (py_get data "nodes" (PList [])) as [v|e]; [eauto|].
      destruct (exn_cls e); simpl; eauto.
    + destruct (exn_cls e); simpl; eauto.
  - destruct (exn_cls e); simpl; eauto.
Qed.

Lemma LOAD_NODES_failure (file_path : string) (w : World) :
  (exists e, open_read E (S (ticks w)) file_path = Raise e)
  \/ (exists text e, open_read E (S (ticks w)) file_path = Ok text
                     /\ yaml_safe_load E text = Raise e) ->
  exists w', LOAD_NODES E file_path w = (Ok (PList []), w').
Proof.
  intros H.
  unfold LOAD_NODES, bind, ask, try_except, call, lift, emit, ret. simpl.
  destruct (os_path_exists E (ticks w) file_path); simpl; [|eauto].
  destruct H as [[e H]|(text & e & H & Hy)]; rewrite H; [|rewrite Hy];
    destruct (exn_cls e); simpl; eauto.
Qed.

(** C5. [LOAD_NODES] is total: whatever the path and the state of the
    outside world, it returns a value and raises nothing.  A missing
    file, a file that cannot be opened or read, and a file that the YAML
    reader rejects all give the empty list; an answer other than the empty
    list is the value stored under the key "nodes" of a file that exists,
    was read and was parsed to a mapping. *)
Theorem LOAD_NODES_total (file_path : string) (w : World) :
  exists v w',
    LOAD_NODES E file_path w = (Ok v, w')
    /\ (os_path_exists E (ticks w) file_path = false -> v = PList [])
    /\ (forall e, open_read E (S (ticks w)) file_path = Raise e ->
                  v = PList [])
    /\ (forall text e, open_read E (S (ticks w)) file_path = Ok text ->
                       yaml_safe_load E text = Raise e ->
                       v = PList [])
    /\ (v <> PList [] ->
        os_path_exists E (ticks w) file_path = true
        /\ exists text d,
             open_read E (S (ticks w)) file_path = Ok text
             /\ yaml_safe_load E text = Ok (PDict d)
             /\ dict_get d "nodes" = Some v).
Proof.
  destruct (LOAD_NODES_never_raises file_path w) as (v & w' & Hrun).
  exists v, w'. split; [exact Hrun|].
  repeat split.
  - intros H. rewrite (LOAD_NODES_missing _ _ H) in Hrun. congruence.
  - intros e H.
    destruct (LOAD_NODES_failure file_path w) as (w1 & H1); [eauto|].
    congruence.
  - intros text e H Hy.
    destruct (LOAD_NODES_failure file_path w) as (w1 & H1); [eauto 6|].
    congruence.
  - destruct (os_path_exists E (ticks w) file_path) eqn:Hex; [reflexivity|].
    rewrite (LOAD_NODES_missing _ _ Hex) in Hrun. congruence.
  - destruct (os_path_exists E (ticks w) file_path) eqn:Hex.
    2:{ rewrite (LOAD_NODES_missing _ _ Hex) in Hrun. congruence. }
    destruct (open_read E (S (ticks w)) file_path) as [text|e] eqn:Hop.
    2:{ destruct (LOAD_NODES_failure file_path w) as (w1 & H1); [eauto|].
        congruence. }
    destruct (yaml_safe_load E text) as [data|e] eqn:Hy.
    2:{ destruct (LOAD_NODES_failure file_path w) as (w1 & H1); [eauto 6|].
        congruence. }
    rewrite (LOAD_NODES_parsed _ _ _ _ Hex Hop Hy) in Hrun.
    exists text.
    destruct data; simpl in Hrun; try congruence.
    exists d. unfold dict_get_or in Hrun.
    destruct (dict_get d "nodes") eqn:Hg; [|congruence].
    repeat split; congruence.
Qed.

(** C10. On a file that exists and is read, a content that parses to
    null gives the empty list, a mapping without the key "nodes" gives the
    empty list, and a mapping with the key "nodes" gives the value stored
    under it, whatever it is; nothing is raised. *)
Theorem LOAD_NODES_shapes (file_path text : string) (w : World)
    (Hexists : os_path_exists E (ticks w) file_path = true)
    (Hread : open_read E (S (ticks w)) file_path = Ok text) :
  (yaml_safe_load E text = Ok PNone ->
   exists w', LOAD_NODES E file_path w = (Ok (PList []), w'))
  /\ (forall d, yaml_safe_load E text = Ok (PDict d) ->
                dict_get d "nodes" = None ->
                exists w', LOAD_NODES E file_path w = (Ok (PList []), w'))
  /\ (forall d v, yaml_safe_load E text = Ok (PDict d) ->
                  dict_get d "nodes" = Some v ->
                  exists w', LOAD_NODES E file_path w = (Ok v, w')).
Proof.
  repeat split.
  - intros Hy. rewrite (LOAD_NODES_parsed _ _ _ _ Hexists Hread Hy).
    simpl. eauto.
  - intros d Hy Hg. rewrite (LOAD_NODES_parsed _ _ _ _ Hexists Hread Hy).
    simpl. unfold dict_get_or. rewrite Hg. eauto.
  - intros d v Hy Hg. rewrite (LOAD_NODES_parsed _ _ _ _ Hexists Hread Hy).
    simpl. unfold dict_get_or. rewrite Hg. eauto.
Qed.

End Registry.

(* ================================================================== *)
(** ** The timed task wrapper: [TaskTimer] *)
(* ================================================================== *)

Section Timer.

Variable E : Env.

Lemma with_TaskTimer_run {A : Type} (label : pyval) (body : M A) (w : World) :
  with_TaskTimer E label body w =
  match body (entered label w) with
  | (Ok a, w1) => (Ok (Some a), exited E true (time_time E (ticks w)) w1)
  | (Raise e, w1) => (Raise e, exited E false (time_time E (ticks w)) w1)
  end.
Proof.
  unfold with_TaskTimer, py_with, TaskTimer_enter, TaskTimer_exit,
    TaskTimer_init, bind, ask, emit, ret, entered, exited, tick.
  simpl.
  destruct (body _) as [[a|e] w1]; reflexivity.
Qed.

(** C6. Around any unit of work, the wrapper writes the running
    indicator before the work starts and, on both ways out, one
    indicator after it, with the time elapsed between the two readings
    of the clock: the success indicator when the work returned, the
    failure indicator when it raised.  The value of the work is passed
    on as it is, the exception of the work is raised again as it is, and
    no exception is ever swallowed. *)
Theorem TaskTimer_never_swallows {A : Type}
    (label : pyval) (body : M A) (w : World) :
  let t0 := time_time E (ticks w) in
  match body (entered label w) with
  | (Ok a, w1) =>
      with_TaskTimer E label body w = (Ok (Some a), exited E true t0 w1)
      /\ console (exited E true t0 w1)
         = console w1 ++ [Finished true (time_time E (ticks w1) - t0)]
  | (Raise e, w1) =>
      with_TaskTimer E label body w = (Raise e, exited E false t0 w1)
      /\ console (exited E false t0 w1)
         = console w1 ++ [Finished false (time_time E (ticks w1) - t0)]
  end
  /\ console (entered label w) = console w ++ [Running label]
  /\ fst (with_TaskTimer E label body w) <> Ok None.
Proof.
  intros t0. rewrite with_TaskTimer_run. fold t0.
  destruct (body (entered label w)) as [[a|e] w1]; simpl;
    repeat split; discriminate.
Qed.

End Timer.

(* ================================================================== *)
(** ** Time stamps *)
(* ================================================================== *)

Lemma digit_value_digit_char (n : N) :
  digit_value (digit_char n) = Some (n mod 10)%N.
Proof.
  unfold digit_value, digit_char.
  assert (Hlt : (n mod 10 < 10)%N) by (apply N.mod_lt; discriminate).
  generalize dependent (n mod 10)%N. intros m Hlt.
  rewrite N_ascii_embedding by lia.
  assert (H1 : (48 <=? 48 + m)%N = true) by (apply N.leb_le; lia).
  assert (H2 : (48 + m <=? 57)%N = true) by (apply N.leb_le; lia).
  cbv zeta. rewrite H1, H2. cbv [andb]. f_equal. lia.
Qed.

Lemma digits_fixed_app (w : nat) (n : N) (acc rest : string) :
  (digits_fixed w n acc ++ rest)%string = digits_fixed w n (acc ++ rest)%string.
Proof.
  revert n acc. induction w as [|w IH]; intros n acc; simpl; [reflexivity|].
  now rewrite IH.
Qed.

Lemma num_digits_aux_le (fuel w : nat) (n : N) :
  (1 <= w)%nat -> (n < 10 ^ N.of_nat w)%N -> (num_digits_aux fuel n <= w)%nat.
Proof.
  revert w n. induction fuel as [|fuel IH]; intros w n Hw Hn; simpl;
    [exact Hw|].
  destruct (n <? 10)%N eqn:Hsmall; [exact Hw|].
  apply N.ltb_ge in Hsmall.
  destruct w as [|[|w]]; [lia| |].
  - change (10 ^ N.of_nat 1)%N with 10%N in Hn. lia.
  - apply le_n_S. apply IH; [lia|].
    apply N.Div0.div_lt_upper_bound.
    rewrite <- N.pow_succ_r'. now rewrite <- Nnat.Nat2N.inj_succ.
Qed.

Lemma fmt_0d_fixed (w : nat) (n : N) :
  (1 <= w)%nat -> (n < 10 ^ N.of_nat w)%N -> fmt_0d w n = digits_fixed w n "".
Proof.
  intros Hw Hn. unfold fmt_0d, num_digits.
  now rewrite Nat.max_l by (apply num_digits_aux_le; assumption).
Qed.

Lemma take_digits_S (w : nat) (c : ascii) (rest : string) (acc : N) :
  take_digits (S w) (String c rest) acc =
  match digit_value c with
  | Some d => take_digits w rest (10 * acc + d)%N
  | None => None
  end.
Proof. reflexivity. Qed.

Lemma take_digits_snoc (w : nat) (s : string) (acc : N) :
  take_digits (S w) s acc =
  match take_digits w s acc with
  | Some (v, String c rest) =>
      match digit_value c with
      | Some d => Some (10 * v + d, rest)%N
      | None => None
      end
  | _ => None
  end.
Proof.
  revert s acc. induction w as [|w IH]; intros s acc.
  - destruct s as [|c rest]; [reflexivity|].
    rewrite take_digits_S. reflexivity.
  - destruct s as [|c rest]; [reflexivity|].
    rewrite !take_digits_S.
    destruct (digit_value c) as [d|]; [|reflexivity].
    apply IH.
Qed.

Lemma take_digits_fixed_mod (w : nat) (n : N) (rest : string) (acc : N) :
  take_digits w (digits_fixed w n rest) acc
  = Some (acc * 10 ^ N.of_nat w + n mod 10 ^ N.of_nat w, rest)%N.
Proof.
  revert n rest acc. induction w as [|w IH]; intros n rest acc.
  - simpl. rewrite N.mod_1_r. f_equal. f_equal. lia.
  - rewrite take_digits_snoc. simpl digits_fixed. rewrite IH.
    rewrite digit_value_digit_char. f_equal. f_equal.
    rewrite Nnat.Nat2N.inj_succ, N.pow_succ_r'.
    rewrite (N.Div0.mod_mul_r n 10). lia.
Qed.

Lemma take_digits_fixed (w : nat) (n : N) (rest : string) :
  (n < 10 ^ N.of_nat w)%N ->
  take_digits w (digits_fixed w n rest) 0 = Some (n, rest).
Proof.
  intros Hn. rewrite take_digits_fixed_mod.
  now rewrite N.mod_small by exact Hn.
Qed.

Lemma count_digits_fixed (w : nat) (n : N) (rest : string) :
  count_digits (digits_fixed w n rest) = (w + count_digits rest)%nat.
Proof.
  revert n rest. induction w as [|w IH]; intros n rest; simpl; [reflexivity|].
  rewrite IH. simpl. rewrite digit_value_digit_char. lia.
Qed.

Lemma days_in_month_le (y m : N) : (days_in_month y m <= 31)%N.
Proof.
  unfold days_in_month.
  destruct (m =? 2)%N; [destruct (is_leap y); lia|].
  destruct ((m =? 4) || (m =? 6) || (m =? 9) || (m =? 11))%N; lia.
Qed.

Lemma scan_digits (w : nat) (n : N) (pat : list field) (rest : string) :
  (n < 10 ^ N.of_nat w)%N ->
  scan (Digits w :: pat) (digits_fixed w n rest) =
  match scan pat rest with
  | Some (ns, rest') => Some (n :: ns, rest')
  | None => None
  end.
Proof.
  intros Hn. cbn [scan]. now rewrite take_digits_fixed.
Qed.

Lemma scan_lit (c : ascii) (pat : list field) (rest : string) :
  scan (Lit c :: pat) (String c rest) = scan pat rest.
Proof.
  cbn [scan]. now rewrite Ascii.eqb_refl.
Qed.

Lemma timestamp_of_fixed (dt : datetime) :
  datetime_ok dt = true ->
  timestamp_of dt =
  digits_fixed 4 (year dt) (String "-" (
  digits_fixed 2 (month dt) (String "-" (
  digits_fixed 2 (day dt) (String "T" (
  digits_fixed 2 (hour dt) (String ":" (
  digits_fixed 2 (minute dt) (String ":" (
  digits_fixed 2 (second dt)
    (if (microsecond dt =? 0)%N then "Z"
     else String "." (digits_fixed 6 (microsecond dt) "Z")))))))))))).
Proof.
  unfold datetime_ok. intros Hok.
  repeat (apply andb_prop in Hok; destruct Hok as [Hok ?]).
  repeat match goal with
         | H : (_ <=? _)%N = true |- _ => apply N.leb_le in H
         | H : (_ <? _)%N = true |- _ => apply N.ltb_lt in H
         end.
  pose proof (days_in_month_le (year dt) (month dt)) as Hdays.
  unfold timestamp_of, isoformat, format_time.
  rewrite (fmt_0d_fixed 4), !(fmt_0d_fixed 2)
    by first [lia | change (10 ^ N.of_nat 4)%N with 10000%N; lia
             | change (10 ^ N.of_nat 2)%N with 100%N; lia].
  destruct (microsecond dt =? 0)%N eqn:Hus.
  - rewrite !digits_fixed_app. reflexivity.
  - rewrite (fmt_0d_fixed 6)
      by first [lia | change (10 ^ N.of_nat 6)%N with 1000000%N; lia].
    rewrite !digits_fixed_app. cbn [String.append].
    rewrite !digits_fixed_app. reflexivity.
Qed.

Lemma timestamp_roundtrip (dt : datetime) :
  datetime_ok dt = true ->
  parse_timestamp (timestamp_of dt)
  = Some (dt, if (microsecond dt =? 0)%N then 0 else 6)%nat.
Proof.
  intros Hok. rewrite (timestamp_of_fixed dt Hok).
  pose proof Hok as Hb. unfold datetime_ok in Hb.
  repeat (apply andb_prop in Hb; destruct Hb as [Hb ?]).
  repeat match goal with
         | H : (_ <=? _)%N = true |- _ => apply N.leb_le in H
         | H : (_ <? _)%N = true |- _ => apply N.ltb_lt in H
         end.
  pose proof (days_in_month_le (year dt) (month dt)) as Hdays.
  unfold parse_timestamp, iso_seconds.
  repeat first
    [ rewrite scan_lit
    | rewrite scan_digits
        by first [ change (10 ^ N.of_nat 4)%N with 10000%N; lia
                 | change (10 ^ N.of_nat 2)%N with 100%N; lia ] ].
  cbn [scan].
  destruct dt as [y mo d h mi se us].
  cbn [year month day hour minute second microsecond] in *.
  destruct (us =? 0)%N eqn:Hus.
  - apply N.eqb_eq in Hus. subst us.
    cbn -[datetime_ok]. now rewrite Hok.
  - cbn [Ascii.eqb Bool.eqb].
    rewrite count_digits_fixed. cbn [count_digits digit_value].
    change (count_digits "Z") with 0%nat.
    rewrite Nat.add_0_r, take_digits_fixed
      by (change (10 ^ N.of_nat 6)%N with 1000000%N; lia).
    replace (fraction_us us 6) with us
      by (unfold fraction_us; cbn; lia).
    cbn -[datetime_ok]. now rewrite Hok.
Qed.

(* ================================================================== *)
(** ** What a computation leaves alone *)
(* ================================================================== *)

Create HintDb frame.

Section Frames.

Context {A B : Type}.

Lemma keeps_log_ret (a : A) : keeps_log (ret a).
Proof. intros w. reflexivity. Qed.

Lemma keeps_log_raise (e : exn) : keeps_log (@raise A e).
Proof. intros w. reflexivity. Qed.

Lemma keeps_log_lift (r : result A) : keeps_log (lift r).
Proof. intros w. reflexivity. Qed.

Lemma keeps_log_ask (f : nat -> A) : keeps_log (ask f).
Proof. intros w. reflexivity. Qed.

Lemma keeps_log_call (f : nat -> result A) : keeps_log (call f).
Proof. intros w. reflexivity. Qed.

Lemma keeps_log_bind (m : M A) (k : A -> M B) :
  keeps_log m -> (forall a, keeps_log (k a)) -> keeps_log (bind m k).
Proof.
  intros Hm Hk w. unfold bind. specialize (Hm w).
  destruct (m w) as [[a|e] w1]; simpl in *; [|exact Hm].
  now rewrite Hk.
Qed.

Lemma keeps_log_try_except (m : M A) (h : exn -> M A) :
  keeps_log m -> (forall e, keeps_log (h e)) -> keeps_log (try_except m h).
Proof.
  intros Hm Hh w. unfold try_except. specialize (Hm w).
  destruct (m w) as [[a|e] w1]; simpl in *; [exact Hm|].
  now rewrite Hh.
Qed.

Lemma keeps_log_try_finally (m : M A) (f : M unit) :
  keeps_log m -> keeps_log f -> keeps_log (try_finally m f).
Proof.
  intros Hm Hf w. unfold try_finally. specialize (Hm w).
  destruct (m w) as [r w1]. specialize (Hf w1).
  destruct (f w1) as [[u|e] w2]; simpl in *; congruence.
Qed.

End Frames.

Lemma keeps_log_emit (ev : console_event) : keeps_log (emit ev).
Proof. intros w. reflexivity. Qed.

Lemma keeps_log_new_stats (d : pydict) : keeps_log (new_stats d).
Proof. intros w. reflexivity. Qed.

Lemma keeps_log_set_stats (k : string) (v : pyval) : keeps_log (set_stats k v).
Proof. intros w. reflexivity. Qed.

Lemma keeps_log_get_stats : keeps_log get_stats.
Proof. intros w. reflexivity. Qed.

#[local] Hint Resolve keeps_log_ret keeps_log_raise keeps_log_lift
  keeps_log_ask keeps_log_call keeps_log_emit keeps_log_new_stats
  keeps_log_set_stats keeps_log_get_stats : frame.

(** Breaks a computation down to its primitive steps. *)
Ltac frame_step :=
  match goal with
  | |- keeps_log (bind _ _) => apply keeps_log_bind
  | |- keeps_log (try_except _ _) => apply keeps_log_try_except
  | |- keeps_log (try_finally _ _) => apply keeps_log_try_finally
  | |- keeps_log (if ?b then _ else _) => destruct b
  | |- keeps_log (match ?x with _ => _ end) => destruct x
  | |- forall _, _ => intro
  | |- _ => solve [auto with frame]
  end.

Ltac frame := repeat frame_step.

Section Strategies.

Variable E : Env.

Lemma keeps_log_with_TaskTimer {A : Type} (label : pyval) (body : M A) :
  keeps_log body -> keeps_log (with_TaskTimer E label body).
Proof.
  intros Hb w. rewrite with_TaskTimer_run. specialize (Hb (entered label w)).
  destruct (body (entered label w)) as [[a|e] w1]; simpl in *; exact Hb.
Qed.

Lemma keeps_log_ssh_exec_all (cmds : list pyval) :
  keeps_log (ssh_exec_all E cmds).
Proof. induction cmds; simpl; frame. Qed.

Lemma keeps_log_local_metrics (items : list (string * string)) :
  keeps_log (local_metrics E items).
Proof. induction items as [|[key cmd] rest IH]; simpl; frame. Qed.

#[local] Hint Resolve keeps_log_ssh_exec_all keeps_log_local_metrics
  keeps_log_with_TaskTimer : frame.

Lemma keeps_log_RUN_LOCAL : keeps_log (RUN_LOCAL E).
Proof.
  unfold RUN_LOCAL. frame. apply keeps_log_with_TaskTimer. frame.
Qed.

Lemma keeps_log_RUN_SSH_COMMANDS (node : pyval) :
  keeps_log (RUN_SSH_COMMANDS E node).
Proof.
  unfold RUN_SSH_COMMANDS, ssh_try, record_and_reraise, ssh_close.
  frame. apply keeps_log_with_TaskTimer. frame.
Qed.

Lemma keeps_log_RUN_NETMIKO_CONFIG (node : pyval) :
  keeps_log (RUN_NETMIKO_CONFIG E node).
Proof.
  unfold RUN_NETMIKO_CONFIG, netmiko_try, record_and_reraise.
  frame. apply keeps_log_with_TaskTimer. frame.
Qed.

Lemma keeps_log_dispatch (node : pyval) : keeps_log (dispatch E node).
Proof.
  unfold dispatch. frame.
  - apply keeps_log_RUN_LOCAL.
  - apply keeps_log_RUN_SSH_COMMANDS.
  - apply keeps_log_RUN_NETMIKO_CONFIG.
Qed.

(** *** The local strategy *)

Lemma metric_step (key cmd : string) (w : World) :
  try_except
    (raw <- call (fun t => subprocess_check_output E t cmd) ;;
     text <- lift (bytes_decode E raw) ;;
     set_stats key (PStr (strip text)))
    (fun e => set_stats key (PStr ("Error: " ++ exn_msg e))) w
  = (Ok tt,
     mkWorld (console w) (log_lines w) (S (ticks w))
             (dict_set (stats w) key (PStr (metric_text E (ticks w) cmd)))).
Proof.
  unfold try_except, bind, call, lift, set_stats, metric_text. simpl.
  destruct (subprocess_check_output E (ticks w) cmd) as [raw|e]; simpl;
    [destruct (bytes_decode E raw) as [text|e]|]; reflexivity.
Qed.

Lemma local_metrics_run (items : list (string * string)) (w : World) :
  exists st,
    local_metrics E items w
    = (Ok tt, mkWorld (console w) (log_lines w) (ticks w + length items) st)
    /\ (forall k, ~ In k (map fst items) ->
                  dict_get st k = dict_get (stats w) k)
    /\ (NoDup (map fst items) ->
        forall i key cmd,
          nth_error items i = Some (key, cmd) ->
          dict_get st key = Some (PStr (metric_text E (ticks w + i) cmd))).
Proof.
  revert w. induction items as [|[key cmd] rest IH]; intros w.
  - exists (stats w). simpl. rewrite Nat.add_0_r. destruct w; simpl.
    split; [reflexivity|]. split; [reflexivity|].
    intros _ [|i] key cmd; discriminate.
  - cbn [local_metrics]. unfold bind at 1. rewrite metric_step.
    destruct (IH (mkWorld (console w) (log_lines w) (S (ticks w))
                    (dict_set (stats w) key
                       (PStr (metric_text E (ticks w) cmd)))))
      as (st & Hrun & Hother & Hnth).
    cbn [console log_lines ticks stats] in *.
    exists st. rewrite Hrun. split; [|split].
    + do 2 f_equal. simpl. lia.
    + intros k Hk. simpl in Hk. rewrite Hother by tauto.
      apply dict_get_set_other. intros ->. tauto.
    + intros Hnd i key' cmd' Hi. simpl in Hnd. inversion Hnd; subst.
      destruct i as [|i]; simpl in Hi.
      * inversion Hi; subst. rewrite Hother by assumption.
        rewrite Nat.add_0_r. apply dict_get_set_same.
      * rewrite (Hnth H2 i key' cmd' Hi). do 3 f_equal. lia.
Qed.

Lemma RUN_LOCAL_run (w : World) :
  exists st,
    RUN_LOCAL E w
    = (Ok (PDict st),
       exited E true (time_time E (ticks w))
         (mkWorld (console w ++ [Running (PStr "Localhost")]) (log_lines w)
                  (ticks w + 9) st))
    /\ dict_get st "status" = Some (PStr "success")
    /\ dict_get st "timestamp"
       = Some (PStr (timestamp_of (datetime_utcnow E (S (S (ticks w))))))
    /\ (forall i key cmd,
          nth_error COMMANDS i = Some (key, cmd) ->
          dict_get st key = Some (PStr (metric_text E (ticks w + 3 + i) cmd))).
Proof.
  set (st0 := [(PStr "host", PStr (socket_gethostname E (S (ticks w))));
               (PStr "timestamp",
                PStr (timestamp_of (datetime_utcnow E (S (S (ticks w))))))]).
  destruct (local_metrics_run COMMANDS
              (mkWorld (console w ++ [Running (PStr "Localhost")])
                       (log_lines w) (S (S (S (ticks w)))) st0))
    as (st & Hrun & Hother & Hnth).
  cbn [console log_lines ticks stats] in *.
  exists (dict_set st "status" (PStr "success")). split; [|split; [|split]].
  - unfold RUN_LOCAL. unfold bind at 1. rewrite with_TaskTimer_run.
    unfold bind, ask, new_stats, set_stats, get_stats, ret, entered, tick.
    cbn [console log_lines ticks stats]. fold st0. rewrite Hrun.
    cbn [console log_lines ticks stats returned]. do 3 f_equal.
    simpl. lia.
  - apply dict_get_set_same.
  - rewrite dict_get_set_other by discriminate.
    rewrite Hother; [reflexivity|].
    simpl. intuition discriminate.
  - intros i key cmd Hi.
    assert (Hne : "status" <> key).
    { intros <-. do 6 (destruct i as [|i]; [discriminate|]).
      destruct i; discriminate. }
    rewrite dict_get_set_other by exact Hne.
    rewrite (Hnth ltac:(repeat constructor; simpl; intuition discriminate)
                  i key cmd Hi).
    do 3 f_equal. lia.
Qed.

(** *** The remote strategies *)

Lemma quiet_ssh_exec_all (cmds : list pyval) : quiet (ssh_exec_all E cmds).
Proof.
  induction cmds as [|cmd rest IH]; intros w; [now simpl|].
  cbn [ssh_exec_all]. unfold bind, call.
  destruct (ssh_exec_command E (ticks w) cmd); [|now simpl].
  cbn [tick ticks].
  destruct (ssh_recv_exit_status E (S (ticks w))); [|now simpl].
  apply (IH (tick (tick w))).
Qed.

(** The [try] block either goes through, and then only sets the status
    to "success", or raises with [stats] untouched. *)
Lemma ssh_try_outcome (node : pyval) (w : World) :
  match ssh_try E node w with
  | (Ok _, w') =>
      stats w' = dict_set (stats w) "status" (PStr "success")
      /\ console w' = console w /\ log_lines w' = log_lines w
  | (Raise _, w') =>
      stats w' = stats w
      /\ console w' = console w /\ log_lines w' = log_lines w
  end.
Proof.
  unfold ssh_try, bind, lift, call, set_stats.
  destruct (py_getitem node "HOST_NAME") as [host|e]; [|now simpl].
  destruct (py_getitem node "USER_NAME") as [user|e]; [|now simpl].
  destruct (py_getitem node "PASSWORD") as [password|e]; [|now simpl].
  destruct (ssh_connect E (ticks w) host user password); [|now simpl].
  destruct (py_get node "COMMANDS" (PList [])) as [cmds|e]; [|now simpl].
  destruct (py_iter cmds) as [items|e]; [|now simpl].
  pose proof (quiet_ssh_exec_all items (tick w)) as Hq.
  destruct (ssh_exec_all E items (tick w)) as [[u|e] w']; simpl in *;
    intuition congruence.
Qed.

Lemma netmiko_try_outcome
    (node device_type host username password : pyval) (w : World) :
  match netmiko_try E node device_type host username password w with
  | (Ok _, w') =>
      stats w' = dict_set (stats w) "status" (PStr "success")
      /\ console w' = console w /\ log_lines w' = log_lines w
  | (Raise _, w') =>
      stats w' = stats w
      /\ console w' = console w /\ log_lines w' = log_lines w
  end.
Proof.
  unfold netmiko_try, bind, lift, call, set_stats.
  destruct (netmiko_ConnectHandler E (ticks w) device_type host username
              password); [|now simpl].
  destruct (py_get node "CONFIG_COMMANDS" (PList [])) as [cmds|e];
    [|now simpl].
  cbn [tick ticks].
  destruct (netmiko_send_config_set E (S (ticks w)) cmds); [|now simpl].
  destruct (netmiko_save_config E (S (S (ticks w)))); [|now simpl].
  destruct (netmiko_disconnect E (S (S (S (ticks w))))); now simpl.
Qed.

(** A connection that fails makes the [try] block raise the exception
    of the connection. *)
Lemma ssh_try_connect_fails (d : pydict) (w : World)
    (host user password : pyval) (e : exn) :
  dict_get d "HOST_NAME" = Some host ->
  dict_get d "USER_NAME" = Some user ->
  dict_get d "PASSWORD" = Some password ->
  ssh_connect E (ticks w) host user password = Raise e ->
  ssh_try E (PDict d) w = (Raise e, tick w).
Proof.
  intros Hh Hu Hp Hc. unfold ssh_try, bind, lift, call. cbn [py_getitem].
  now rewrite Hh, Hu, Hp, Hc.
Qed.

Lemma netmiko_try_connect_fails
    (node device_type host username password : pyval) (w : World) (e : exn) :
  netmiko_ConnectHandler E (ticks w) device_type host username password
  = Raise e ->
  netmiko_try E node device_type host username password w = (Raise e, tick w).
Proof.
  intros Hc. unfold netmiko_try, bind, call. now rewrite Hc.
Qed.

(** The strategy in terms of its [try] block. *)
Lemma RUN_SSH_COMMANDS_run (d : pydict) (w : World) :
  let t0 := time_time E (ticks w) in
  let entry :=
    try_entry E (dict_get_or d "HOST_NAME" (PStr "SSH Node"))
              (dict_get_or d "HOST_NAME" (PStr "unknown")) w in
  RUN_SSH_COMMANDS E (PDict d) w =
  match ssh_try E (PDict d) entry with
  | (Ok _, w') => (Ok (PDict (stats w')), exited E true t0 (tick w'))
  | (Raise e, w') =>
      (Raise e,
       exited E false t0
         (tick (mkWorld (console w') (log_lines w') (ticks w')
                  (dict_set (stats w') "status"
                     (PStr ("fail: " ++ exn_msg e))))))
  end.
Proof.
  intros t0 entry. subst t0 entry.
  unfold RUN_SSH_COMMANDS. cbn [py_get]. unfold lift at 1, bind at 1.
  unfold bind at 1. rewrite with_TaskTimer_run.
  unfold try_finally, try_except, record_and_reraise, ssh_close, ask, lift,
    new_stats, set_stats, raise, bind, get_stats, ret, try_entry, entered.
  cbn [tick console log_lines ticks stats].
  match goal with
  | |- context [ssh_try E (PDict d) ?x] =>
      destruct (ssh_try E (PDict d) x) as [[u|e] w']
  end; reflexivity.
Qed.

Lemma RUN_NETMIKO_CONFIG_run (d : pydict) (w : World) :
  let t0 := time_time E (ticks w) in
  let entry :=
    try_entry E (dict_get_or d "HOST_NAME" (PStr "Netmiko Node"))
              (dict_get_or d "HOST_NAME" (PStr "unknown")) w in
  RUN_NETMIKO_CONFIG E (PDict d) w =
  match netmiko_try E (PDict d)
          (dict_get_or d "DEVICE_TYPE" PNone) (dict_get_or d "HOST_NAME" PNone)
          (dict_get_or d "USER_NAME" PNone) (dict_get_or d "PASSWORD" PNone)
          entry with
  | (Ok _, w') => (Ok (PDict (stats w')), exited E true t0 w')
  | (Raise e, w') =>
      (Raise e,
       exited E false t0
         (mkWorld (console w') (log_lines w') (ticks w')
            (dict_set (stats w') "status" (PStr ("fail: " ++ exn_msg e)))))
  end.
Proof.
  intros t0 entry. subst t0 entry.
  unfold RUN_NETMIKO_CONFIG. cbn [py_get]. unfold lift at 1, bind at 1.
  unfold bind at 1. rewrite with_TaskTimer_run.
  unfold try_except, record_and_reraise, ask, lift,
    new_stats, set_stats, raise, bind, get_stats, ret, try_entry, entered.
  cbn [tick console log_lines ticks stats].
  match goal with
  | |- context [netmiko_try E (PDict d) ?a ?b ?c ?p ?x] =>
      destruct (netmiko_try E (PDict d) a b c p x) as [[u|e] w']
  end; reflexivity.
Qed.

(** *** The sink and the loop *)

Lemma save_log_outcome (stat : pyval) (w : World) :
  match save_log E stat w with
  | (Ok _, w') =>
      exists text,
        json_dumps E stat = Ok text
        /\ log_lines w' = log_lines w ++ [log_line text]
  | (Raise _, w') => log_lines w' = log_lines w
  end.
Proof.
  unfold save_log, bind, call, lift, append_line, log_line.
  destruct (open_append E (ticks w) LOG_FILE); [|reflexivity].
  destruct (json_dumps E stat) as [text|e]; [|reflexivity].
  cbn [tick ticks].
  destruct (file_write E (S (ticks w)) _); [|reflexivity].
  exists text. split; reflexivity.
Qed.

Lemma dispatch_dict (d : pydict) (w : World) :
  dispatch E (PDict d) w =
  if py_eq_str (dict_get_or d "DEVICE_TYPE" PNone) "local" then RUN_LOCAL E w
  else if py_eq_str (dict_get_or d "DEVICE_TYPE" PNone) "ssh"
       then RUN_SSH_COMMANDS E (PDict d) w
       else RUN_NETMIKO_CONFIG E (PDict d) w.
Proof.
  unfold dispatch, bind, lift. cbn [py_get].
  destruct (py_eq_str (dict_get_or d "DEVICE_TYPE" PNone) "local");
    [reflexivity|].
  destruct (py_eq_str (dict_get_or d "DEVICE_TYPE" PNone) "ssh"); reflexivity.
Qed.

(** A strategy that returns has built a record with status "success". *)
Lemma dispatch_success (d : pydict) (w w1 : World) (stat : pyval) :
  dispatch E (PDict d) w = (Ok stat, w1) ->
  exists st, stat = PDict st /\ dict_get st "status" = Some (PStr "success").
Proof.
  rewrite dispatch_dict.
  destruct (py_eq_str (dict_get_or d "DEVICE_TYPE" PNone) "local").
  { destruct (RUN_LOCAL_run w) as (st & Hrun & Hstatus & _).
    rewrite Hrun. intros H. inversion H; subst. eauto. }
  destruct (py_eq_str (dict_get_or d "DEVICE_TYPE" PNone) "ssh").
  - rewrite RUN_SSH_COMMANDS_run. cbv zeta.
    match goal with
    | |- context [ssh_try E ?n ?x] =>
        pose proof (ssh_try_outcome n x) as Hout;
        destruct (ssh_try E n x) as [[u|e] w']
    end; [|discriminate].
    intros H. inversion H; subst. destruct Hout as (Hst & _).
    exists (stats w'). split; [reflexivity|].
    rewrite Hst. apply dict_get_set_same.
  - rewrite RUN_NETMIKO_CONFIG_run. cbv zeta.
    match goal with
    | |- context [netmiko_try E ?n ?a ?b ?c ?p ?x] =>
        pose proof (netmiko_try_outcome n a b c p x) as Hout;
        destruct (netmiko_try E n a b c p x) as [[u|e] w']
    end; [|discriminate].
    intros H. inversion H; subst. destruct Hout as (Hst & _).
    exists (stats w'). split; [reflexivity|].
    rewrite Hst. apply dict_get_set_same.
Qed.

Lemma loop_body_run (d : pydict) (all_stats : list pyval) (w : World) :
  loop_body E (PDict d) all_stats w =
  match dispatch E (PDict d) w with
  | (Ok stat, w1) =>
      match save_log E stat w1 with
      | (Ok _, w2) => (Ok (all_stats ++ [stat]), w2)
      | (Raise e, w2) =>
          (Ok all_stats, noticed (dict_get_or d "HOST_NAME" PNone) e w2)
      end
  | (Raise e, w1) =>
      (Ok all_stats, noticed (dict_get_or d "HOST_NAME" PNone) e w1)
  end.
Proof.
  unfold loop_body, try_except. unfold bind at 1.
  destruct (dispatch E (PDict d) w) as [[stat|e] w1].
  - unfold bind at 1.
    destruct (save_log E stat w1) as [[u|e] w2]; reflexivity.
  - reflexivity.
Qed.

(** One turn of the loop on a node record: it never raises, it adds at
    most one result at the end of the list, and what it adds and the
    state it leaves do not depend on the list. *)
Lemma loop_body_step (d : pydict) (w : World) :
  exists out texts w',
    (forall all_stats,
        loop_body E (PDict d) all_stats w = (Ok (all_stats ++ out), w'))
    /\ Forall2 (logged_success E) out texts
    /\ log_lines w' = log_lines w ++ map log_line texts.
Proof.
  pose proof (keeps_log_dispatch (PDict d) w) as Hlog.
  pose proof (dispatch_success d w) as Hsucc.
  destruct (dispatch E (PDict d) w) as [[stat|e] w1] eqn:Hd; simpl in Hlog.
  - pose proof (save_log_outcome stat w1) as Hsave.
    destruct (save_log E stat w1) as [[u|e] w2] eqn:Hs.
    + destruct Hsave as (text & Hjson & Hline).
      exists [stat], [text], w2. split; [|split].
      * intros acc. rewrite loop_body_run, Hd, Hs. reflexivity.
      * constructor; [|constructor]. split; [exact Hjson|].
        destruct (Hsucc w1 stat eq_refl) as (st & -> & Hst). eauto.
      * simpl. congruence.
    + exists [], [], (noticed (dict_get_or d "HOST_NAME" PNone) e w2).
      split; [|split].
      * intros acc. rewrite loop_body_run, Hd, Hs, app_nil_r. reflexivity.
      * constructor.
      * simpl. rewrite app_nil_r. congruence.
  - exists [], [], (noticed (dict_get_or d "HOST_NAME" PNone) e w1).
    split; [|split].
    + intros acc. rewrite loop_body_run, Hd, app_nil_r. reflexivity.
    + constructor.
    + simpl. rewrite app_nil_r. exact Hlog.
Qed.

Lemma main_loop_run (nodes : list pyval) (w : World) :
  Forall (fun node => is_dict node = true) nodes ->
  exists out texts w',
    (forall all_stats,
        main_loop E nodes all_stats w = (Ok (all_stats ++ out), w'))
    /\ Forall2 (logged_success E) out texts
    /\ log_lines w' = log_lines w ++ map log_line texts.
Proof.
  intros Hnodes. revert w.
  induction Hnodes as [|node rest Hnode _ IH]; intros w.
  - exists [], [], w. split; [|split].
    + intros acc. simpl. now rewrite app_nil_r.
    + constructor.
    + simpl. now rewrite app_nil_r.
  - destruct node; try discriminate.
    destruct (loop_body_step d w) as (out1 & texts1 & w1 & Hrun1 & Hl1 & Hlog1).
    destruct (IH w1) as (out2 & texts2 & w2 & Hrun2 & Hl2 & Hlog2).
    exists (out1 ++ out2), (texts1 ++ texts2), w2. split; [|split].
    + intros acc. cbn [main_loop]. unfold bind. rewrite Hrun1, Hrun2.
      now rewrite app_assoc.
    + apply Forall2_app; assumption.
    + rewrite Hlog2, Hlog1, map_app. now rewrite app_assoc.
Qed.

(** The loop over a list of nodes followed by another is the loop over
    the first, then the loop over the second from where the first ended. *)
Lemma main_loop_app (nodes1 nodes2 : list pyval) (all_stats : list pyval)
    (w : World) :
  main_loop E (nodes1 ++ nodes2) all_stats w =
  match main_loop E nodes1 all_stats w with
  | (Ok all_stats', w') => main_loop E nodes2 all_stats' w'
  | (Raise e, w') => (Raise e, w')
  end.
Proof.
  revert all_stats w. induction nodes1 as [|node rest IH]; intros acc w.
  - reflexivity.
  - cbn [app main_loop]. unfold bind.
    destruct (loop_body E node acc w) as [[acc'|e] w']; [apply IH|reflexivity].
Qed.

Lemma firstn_all_dicts (i : nat) (nodes : list pyval) :
  Forall (fun node => is_dict node = true) nodes ->
  Forall (fun node => is_dict node = true) (firstn i nodes).
Proof.
  intros H. revert i. induction H as [|node rest Hnode _ IH]; intros [|i];
    simpl; constructor; auto.
Qed.

Lemma state_before_0 (nodes : list pyval) (w : World) :
  state_before E nodes 0 w = w.
Proof. reflexivity. Qed.

Lemma state_before_S (d : pydict) (rest all_stats : list pyval) (i : nat)
    (w w1 : World) :
  Forall (fun node => is_dict node = true) rest ->
  loop_body E (PDict d) [] w = (Ok all_stats, w1) ->
  state_before E (PDict d :: rest) (S i) w = state_before E rest i w1.
Proof.
  intros Hrest Hbody. unfold state_before. cbn [firstn main_loop].
  unfold bind. rewrite Hbody.
  destruct (main_loop_run (firstn i rest) w1) as (out & texts & w2 & Hrun & _).
  { now apply firstn_all_dicts. }
  now rewrite (Hrun all_stats), (Hrun []).
Qed.

Lemma produced_by_S (d : pydict) (rest all_stats : list pyval) (i : nat)
    (w w1 : World) (stat : pyval) :
  Forall (fun node => is_dict node = true) rest ->
  loop_body E (PDict d) [] w = (Ok all_stats, w1) ->
  produced_by E rest w1 i stat ->
  produced_by E (PDict d :: rest) w (S i) stat.
Proof.
  intros Hrest Hbody (node & wa & Hnth & Hd & Hs).
  exists node, wa.
  rewrite !(state_before_S d rest all_stats _ w w1 Hrest Hbody).
  auto.
Qed.

Lemma Forall2_pick {A B : Type} (R : A -> B -> Prop)
    (l1 : list A) (l2 : list B) (a : A) :
  Forall2 R l1 l2 -> In a l1 ->
  exists j b, nth_error l1 j = Some a /\ nth_error l2 j = Some b /\ R a b.
Proof.
  induction 1 as [|x y l1 l2 Hxy _ IH]; intros Hin; [contradiction|].
  destruct Hin as [->|Hin].
  - exists 0, y. auto.
  - destruct (IH Hin) as (j & b & H1 & H2 & H3). exists (S j), b. auto.
Qed.

(** The results of a run, with the numbers of the nodes they come
    from: the numbers increase, each result is the result of the node of
    its number, and every node whose strategy returns and whose result
    the sink takes has its number in the list. *)
Lemma main_loop_indexed (nodes : list pyval) :
  Forall (fun node => is_dict node = true) nodes ->
  forall w,
  exists out idx w',
    (forall all_stats,
        main_loop E nodes all_stats w = (Ok (all_stats ++ out), w'))
    /\ StronglySorted lt idx
    /\ Forall2 (produced_by E nodes w) idx out
    /\ (forall i node stat wa wb,
          nth_error nodes i = Some node ->
          dispatch E node (state_before E nodes i w) = (Ok stat, wa) ->
          save_log E stat wa = (Ok tt, wb) ->
          In i idx).
Proof.
  induction 1 as [|node rest Hnode Hrest IH]; intros w.
  - exists [], [], w. split; [|split; [constructor|split; [constructor|]]].
    + intros acc. simpl. now rewrite app_nil_r.
    + intros [|i] node stat wa wb Hnth; discriminate.
  - destruct node; try discriminate.
    assert (Hshift : forall w1 acc1 idx2 out2,
               loop_body E (PDict d) [] w = (Ok acc1, w1) ->
               Forall2 (produced_by E rest w1) idx2 out2 ->
               Forall2 (produced_by E (PDict d :: rest) w) (map S idx2) out2).
    { intros w1 acc1 idx2 out2 Hbody Hall.
      induction Hall as [|i stat idx2 out2 Hp _ IHall]; simpl; constructor;
        [|exact IHall].
      eapply produced_by_S; eassumption. }
    assert (Hsorted : forall idx2,
               StronglySorted lt idx2 -> StronglySorted lt (map S idx2)).
    { induction 1 as [|i idx2 _ IHs Hall]; simpl; constructor; [exact IHs|].
      rewrite Forall_map. eapply Forall_impl; [|exact Hall].
      intros j Hj. simpl. lia. }
    assert (Hlater : forall w1 acc1 (idx2 : list nat),
               loop_body E (PDict d) [] w = (Ok acc1, w1) ->
               (forall i node stat wa wb,
                   nth_error rest i = Some node ->
                   dispatch E node (state_before E rest i w1) = (Ok stat, wa) ->
                   save_log E stat wa = (Ok tt, wb) ->
                   In i idx2) ->
               forall i node stat wa wb,
                 nth_error (PDict d :: rest) (S i) = Some node ->
                 dispatch E node (state_before E (PDict d :: rest) (S i) w)
                 = (Ok stat, wa) ->
                 save_log E stat wa = (Ok tt, wb) ->
                 In (S i) (map S idx2)).
    { intros w1 acc1 idx2 Hbody Hcomplete i node stat wa wb Hnth Hd Hs.
      rewrite (state_before_S d rest acc1 i w w1 Hrest Hbody) in Hd.
      apply in_map. exact (Hcomplete i node stat wa wb Hnth Hd Hs). }
    pose proof (loop_body_run d [] w) as Hbody.
    destruct (dispatch E (PDict d) w) as [[stat|e] wa] eqn:Hd.
    + destruct (save_log E stat wa) as [[[]|e] wb] eqn:Hs.
      * destruct (IH wb) as (out2 & idx2 & w2 & Hrun2 & Hs2 & Hp2 & Hc2).
        exists (stat :: out2), (0 :: map S idx2), w2.
        split; [|split; [|split]].
        -- intros acc. cbn [main_loop]. unfold bind.
           rewrite loop_body_run, Hd, Hs, Hrun2, <- app_assoc. reflexivity.
        -- constructor; [now apply Hsorted|].
           rewrite Forall_map. apply Forall_forall. intros j _. lia.
        -- constructor; [|eapply Hshift; eassumption].
           exists (PDict d), wa. split; [reflexivity|].
           rewrite state_before_0. split; [exact Hd|].
           rewrite Hs. f_equal.
           unfold state_before. cbn [firstn main_loop]. unfold bind.
           now rewrite Hbody.
        -- intros [|i] node stat' wa' wb' Hnth Hd' Hs'; [now left|].
           right. eapply Hlater; eassumption.
      * destruct (IH (noticed (dict_get_or d "HOST_NAME" PNone) e wb))
          as (out2 & idx2 & w2 & Hrun2 & Hs2 & Hp2 & Hc2).
        exists out2, (map S idx2), w2. split; [|split; [|split]].
        -- intros acc. cbn [main_loop]. unfold bind.
           rewrite loop_body_run, Hd, Hs, Hrun2. reflexivity.
        -- now apply Hsorted.
        -- eapply Hshift; eassumption.
        -- intros [|i] node stat' wa' wb' Hnth Hd' Hs'.
           ++ simpl in Hnth. inversion Hnth; subst node.
              rewrite state_before_0, Hd in Hd'. inversion Hd'; subst.
              rewrite Hs in Hs'. discriminate.
           ++ eapply Hlater; eassumption.
    + destruct (IH (noticed (dict_get_or d "HOST_NAME" PNone) e wa))
        as (out2 & idx2 & w2 & Hrun2 & Hs2 & Hp2 & Hc2).
      exists out2, (map S idx2), w2. split; [|split; [|split]].
      * intros acc. cbn [main_loop]. unfold bind.
        rewrite loop_body_run, Hd, Hrun2. reflexivity.
      * now apply Hsorted.
      * eapply Hshift; eassumption.
      * intros [|i] node stat' wa' wb' Hnth Hd' Hs'.
        -- simpl in Hnth. inversion Hnth; subst node.
           rewrite state_before_0, Hd in Hd'. discriminate.
        -- eapply Hlater; eassumption.
Qed.

Lemma py_eq_str_true (v : pyval) (k : string) :
  py_eq_str v k = true <-> v = PStr k.
Proof.
  split.
  - destruct v; simpl; try discriminate.
    intros H. apply String.eqb_eq in H. now subst.
  - intros ->. simpl. apply String.eqb_refl.
Qed.

Lemma device_kind_is (d : pydict) (k : string) :
  py_eq_str (dict_get_or d "DEVICE_TYPE" PNone) k = true
  <-> dict_get d "DEVICE_TYPE" = Some (PStr k).
Proof.
  rewrite py_eq_str_true. unfold dict_get_or.
  destruct (dict_get d "DEVICE_TYPE"); split; congruence.
Qed.

Lemma device_kind_is_not (d : pydict) (k : string) :
  dict_get d "DEVICE_TYPE" <> Some (PStr k) ->
  py_eq_str (dict_get_or d "DEVICE_TYPE" PNone) k = false.
Proof.
  intros H. apply not_true_is_false. now rewrite device_kind_is.
Qed.

(** C3. The strategy of a node record depends on the value stored under
    DEVICE_TYPE and on nothing else: "local" runs the local strategy,
    "ssh" runs the raw remote shell, and every other value runs the
    managed-device strategy, a missing DEVICE_TYPE included. *)
Theorem dispatch_by_device_kind (d : pydict) (w : World) :
  (dict_get d "DEVICE_TYPE" = Some (PStr "local") ->
   dispatch E (PDict d) w = RUN_LOCAL E w)
  /\ (dict_get d "DEVICE_TYPE" = Some (PStr "ssh") ->
      dispatch E (PDict d) w = RUN_SSH_COMMANDS E (PDict d) w)
  /\ (dict_get d "DEVICE_TYPE" <> Some (PStr "local") ->
      dict_get d "DEVICE_TYPE" <> Some (PStr "ssh") ->
      dispatch E (PDict d) w = RUN_NETMIKO_CONFIG E (PDict d) w)
  /\ (dict_get d "DEVICE_TYPE" = None ->
      dispatch E (PDict d) w = RUN_NETMIKO_CONFIG E (PDict d) w).
Proof.
  rewrite dispatch_dict. repeat split.
  - intros H. apply device_kind_is in H. now rewrite H.
  - intros H. unfold dict_get_or. now rewrite H.
  - intros H1 H2. now rewrite !device_kind_is_not.
  - intros H. unfold dict_get_or. now rewrite H.
Qed.

(** C1. For a node record whose DEVICE_TYPE is "local" the strategy is
    [RUN_LOCAL], which raises nothing and returns a record whose status
    is "success", however many of the six commands of the catalog fail.
    Under the key of each metric the record holds the decoded output of
    the command with the white space at both ends removed, or, when
    running the command or decoding its output raised, the text
    "Error: " followed by the message of the exception. *)
Theorem local_node_always_succeeds (d : pydict) (w : World) :
  dict_get d "DEVICE_TYPE" = Some (PStr "local") ->
  exists st w',
    dispatch E (PDict d) w = (Ok (PDict st), w')
    /\ RUN_LOCAL E w = (Ok (PDict st), w')
    /\ dict_get st "status" = Some (PStr "success")
    /\ forall i key cmd,
         nth_error COMMANDS i = Some (key, cmd) ->
         let t := ticks w + 3 + i in
         (exists raw text,
             subprocess_check_output E t cmd = Ok raw
             /\ bytes_decode E raw = Ok text
             /\ dict_get st key = Some (PStr (strip text)))
         \/ (exists e,
                (subprocess_check_output E t cmd = Raise e
                 \/ exists raw, subprocess_check_output E t cmd = Ok raw
                                /\ bytes_decode E raw = Raise e)
                /\ dict_get st key = Some (PStr ("Error: " ++ exn_msg e))).
Proof.
  intros Hkind.
  destruct (RUN_LOCAL_run w) as (st & Hrun & Hstatus & _ & Hmetrics).
  exists st. eexists. split; [|split; [exact Hrun|split; [exact Hstatus|]]].
  - rewrite dispatch_dict. apply device_kind_is in Hkind.
    rewrite Hkind. exact Hrun.
  - intros i key cmd Hi t. specialize (Hmetrics i key cmd Hi).
    fold t in Hmetrics. unfold metric_text in Hmetrics.
    destruct (subprocess_check_output E t cmd) as [raw|e] eqn:Hout.
    + destruct (bytes_decode E raw) as [text|e] eqn:Hdec.
      * left. exists raw, text. auto.
      * right. exists e. split; [right; exists raw; auto|exact Hmetrics].
    + right. exists e. split; [left; reflexivity|exact Hmetrics].
Qed.


(** C2. On a list of node records the loop of [main] never raises.
    When the strategy of a node raises, whatever came before it, the
    loop writes the error notice with the HOST_NAME of this node and the
    exception on the console, keeps the list of results as it was, and
    goes on with the nodes that follow. *)
Theorem node_failure_is_isolated
    (nodes all_stats : list pyval) (w : World)
    (Hnodes : Forall (fun node => is_dict node = true) nodes) :
  (exists out w', main_loop E nodes all_stats w = (Ok out, w'))
  /\ (forall before d after acc1 w1 e w2,
        nodes = before ++ PDict d :: after ->
        main_loop E before all_stats w = (Ok acc1, w1) ->
        dispatch E (PDict d) w1 = (Raise e, w2) ->
        let host_name := dict_get_or d "HOST_NAME" PNone in
        console (noticed host_name e w2)
        = console w2 ++ [ErrorProcessing host_name e]
        /\ loop_body E (PDict d) acc1 w1 = (Ok acc1, noticed host_name e w2)
        /\ main_loop E nodes all_stats w
           = main_loop E after acc1 (noticed host_name e w2)).
Proof.
  split.
  - destruct (main_loop_run nodes w Hnodes) as (out & texts & w' & Hrun & _).
    exists (all_stats ++ out), w'. apply Hrun.
  - intros before d after acc1 w1 e w2 -> Hbefore Hraise host_name.
    assert (Hbody : loop_body E (PDict d) acc1 w1
                    = (Ok acc1, noticed host_name e w2)).
    { rewrite loop_body_run, Hraise. reflexivity. }
    split; [reflexivity|]. split; [exact Hbody|].
    rewrite main_loop_app, Hbefore. cbn [main_loop]. unfold bind.
    now rewrite Hbody.
Qed.

(** C9. When the strategy of a node record raises, the turn of the
    loop for this node leaves the log file and the list of results as
    they were.  Over a whole run, the lines added to the log are, in
    order, the texts of the results added to the list, and each of them
    is a record that a strategy returned, with the status "success": no
    record with a fail status is ever written. *)
Theorem failed_node_leaves_no_record :
  (forall d all_stats w e w1,
      dispatch E (PDict d) w = (Raise e, w1) ->
      exists w2,
        loop_body E (PDict d) all_stats w = (Ok all_stats, w2)
        /\ log_lines w2 = log_lines w)
  /\ (forall nodes all_stats w,
        Forall (fun node => is_dict node = true) nodes ->
        exists out texts w',
          main_loop E nodes all_stats w = (Ok (all_stats ++ out), w')
          /\ Forall2 (logged_success E) out texts
          /\ log_lines w' = log_lines w ++ map log_line texts).
Proof.
  split.
  - intros d acc w e w1 Hraise.
    exists (noticed (dict_get_or d "HOST_NAME" PNone) e w1).
    rewrite loop_body_run, Hraise. split; [reflexivity|].
    pose proof (keeps_log_dispatch (PDict d) w) as Hlog.
    rewrite Hraise in Hlog. exact Hlog.
  - intros nodes acc w Hnodes.
    destruct (main_loop_run nodes w Hnodes)
      as (out & texts & w' & Hrun & Hall & Hlog).
    exists out, texts, w'. auto.
Qed.

(** C7. On a list of node records, the results that [main] has gathered
    when the loop ends come from nodes whose numbers increase along the
    list: results are in the order of their nodes.  Each of them was
    returned by the strategy of its node and taken by [save_log], which
    had returned before the result joined the list; the lines added to
    the log are the texts of the results, in the same order.  No result
    is lost: every node whose strategy returns a result that [save_log]
    takes has this result in the list, at the place of its number. *)
Theorem results_follow_node_order (nodes : list pyval) (w : World)
    (Hnodes : Forall (fun node => is_dict node = true) nodes) :
  exists out idx texts w',
    main_loop E nodes [] w = (Ok out, w')
    /\ StronglySorted lt idx
    /\ Forall2 (produced_by E nodes w) idx out
    /\ Forall2 (fun stat text => json_dumps E stat = Ok text) out texts
    /\ log_lines w' = log_lines w ++ map log_line texts
    /\ (forall i node stat wa wb,
          nth_error nodes i = Some node ->
          dispatch E node (state_before E nodes i w) = (Ok stat, wa) ->
          save_log E stat wa = (Ok tt, wb) ->
          exists j, nth_error idx j = Some i /\ nth_error out j = Some stat).
Proof.
  destruct (main_loop_indexed nodes Hnodes w)
    as (out & idx & w' & Hrun & Hsorted & Hprod & Hcomplete).
  destruct (main_loop_run nodes w Hnodes)
    as (out' & texts & w'' & Hrun' & Hall & Hlog).
  specialize (Hrun []). specialize (Hrun' []). simpl in Hrun, Hrun'.
  assert (out' = out /\ w'' = w') as [-> ->]
    by (split; congruence).
  exists out, idx, texts, w'.
  split; [exact Hrun|]. split; [exact Hsorted|]. split; [exact Hprod|].
  split; [|split; [exact Hlog|]].
  - eapply Forall2_impl; [|exact Hall]. intros stat text [H _]. exact H.
  - intros i node stat wa wb Hnth Hd Hs.
    destruct (Forall2_pick _ _ _ i Hprod
                (Hcomplete i node stat wa wb Hnth Hd Hs))
      as (j & stat' & Hj & Hout & (node' & wa' & Hnth' & Hd' & _)).
    exists j. split; [exact Hj|]. rewrite Hout. congruence.
Qed.

(** *** The time stamp of a result *)

Lemma RUN_SSH_COMMANDS_timestamp (d : pydict) (w : World) :
  dict_get (stats (snd (RUN_SSH_COMMANDS E (PDict d) w))) "timestamp"
  = Some (PStr (timestamp_of (datetime_utcnow E (S (ticks w))))).
Proof.
  rewrite RUN_SSH_COMMANDS_run. cbv zeta.
  match goal with
  | |- context [ssh_try E ?n ?x] =>
      pose proof (ssh_try_outcome n x) as Hout;
      destruct (ssh_try E n x) as [[u|e] w']
  end; destruct Hout as (Hst & _); cbn [snd exited tick stats];
    rewrite Hst, !dict_get_set_other by discriminate; reflexivity.
Qed.

Lemma RUN_NETMIKO_CONFIG_timestamp (d : pydict) (w : World) :
  dict_get (stats (snd (RUN_NETMIKO_CONFIG E (PDict d) w))) "timestamp"
  = Some (PStr (timestamp_of (datetime_utcnow E (S (ticks w))))).
Proof.
  rewrite RUN_NETMIKO_CONFIG_run. cbv zeta.
  match goal with
  | |- context [netmiko_try E ?n ?a ?b ?c ?p ?x] =>
      pose proof (netmiko_try_outcome n a b c p x) as Hout;
      destruct (netmiko_try E n a b c p x) as [[u|e] w']
  end; destruct Hout as (Hst & _); cbn [snd exited tick stats];
    rewrite Hst, !dict_get_set_other by discriminate; reflexivity.
Qed.

(** C8, as the program has it.  The record that each of the three
    strategies builds holds under "timestamp" the reading of the UTC
    clock in ISO-8601 form followed by "Z".  The fraction of a second has
    six digits when the microseconds of the reading are not zero and is
    left out when they are zero; in both cases the string reads back to
    the reading, to the microsecond. *)
Theorem timestamp_is_utc_iso8601 (d : pydict) (w : World)
    (Hclock : forall t, datetime_ok (datetime_utcnow E t) = true) :
  let stamped (now : datetime) (st : pydict) :=
    dict_get st "timestamp" = Some (PStr (timestamp_of now))
    /\ parse_timestamp (timestamp_of now)
       = Some (now, if (microsecond now =? 0)%N then 0 else 6) in
  stamped (datetime_utcnow E (S (S (ticks w)))) (stats (snd (RUN_LOCAL E w)))
  /\ stamped (datetime_utcnow E (S (ticks w)))
             (stats (snd (RUN_SSH_COMMANDS E (PDict d) w)))
  /\ stamped (datetime_utcnow E (S (ticks w)))
             (stats (snd (RUN_NETMIKO_CONFIG E (PDict d) w))).
Proof.
  intros stamped. unfold stamped.
  repeat split; try (apply timestamp_roundtrip, Hclock).
  - destruct (RUN_LOCAL_run w) as (st & Hrun & _ & Hstamp & _).
    rewrite Hrun. exact Hstamp.
  - apply RUN_SSH_COMMANDS_timestamp.
  - apply RUN_NETMIKO_CONFIG_timestamp.
Qed.

End Strategies.

(* ================================================================== *)
(** ** Further properties: the registry and the whole run *)
(* ================================================================== *)

Section WholeRun.

Variable E : Env.

Lemma keeps_log_LOAD_NODES (file_path : string) :
  keeps_log (LOAD_NODES E file_path).
Proof. unfold LOAD_NODES. frame. Qed.

(** Every failure of the load is reported by one message, chosen by the
    class of the exception: a YAML error names the file, any other
    exception is reported as unexpected.  The answer is the empty list
    and nothing but the console changes. *)
Theorem LOAD_NODES_reports_by_class (file_path : string) (w : World) (e : exn)
    (Hfound : os_path_exists E (ticks w) file_path = true)
    (Hfail : open_read E (S (ticks w)) file_path = Raise e
             \/ exists text, open_read E (S (ticks w)) file_path = Ok text
                             /\ yaml_safe_load E text = Raise e) :
  LOAD_NODES E file_path w =
  (Ok (PList []),
   mkWorld (console w ++ [match exn_cls e with
                          | YAMLError => YamlErrorIn file_path e
                          | _ => UnexpectedLoadError e
                          end])
           (log_lines w) (S (S (ticks w))) (stats w)).
Proof.
  unfold LOAD_NODES, bind, ask, try_except, call, lift, emit, ret. simpl.
  rewrite Hfound. simpl.
  destruct Hfail as [H|(text & H & Hy)]; rewrite H; [|rewrite Hy];
    destruct (exn_cls e); reflexivity.
Qed.

(** A document that is not a mapping at top level (a list, a scalar,
    nothing at all) gives the empty list: [data.get] does not exist, and
    the attribute error is reported as an unexpected error. *)
Theorem LOAD_NODES_not_a_mapping (file_path text : string) (data : pyval)
    (w : World)
    (Hfound : os_path_exists E (ticks w) file_path = true)
    (Hread : open_read E (S (ticks w)) file_path = Ok text)
    (Hload : yaml_safe_load E text = Ok data)
    (Hshape : is_dict data = false) :
  LOAD_NODES E file_path w =
  (Ok (PList []),
   mkWorld (console w ++ [UnexpectedLoadError (no_attribute data "get")])
           (log_lines w) (S (S (ticks w))) (stats w)).
Proof.
  rewrite (LOAD_NODES_parsed E _ _ _ _ Hfound Hread Hload).
  destruct data; try reflexivity. discriminate.
Qed.

(** With a nodes file that is missing, unreadable, not YAML or not a
    mapping, [main] ends without a result: one message on the console,
    no strategy run, nothing written to the log. *)
Theorem main_without_nodes (w : World)
    (Hunusable :
       os_path_exists E (ticks w) NODES_FILE = false
       \/ (exists e, open_read E (S (ticks w)) NODES_FILE = Raise e)
       \/ (exists text e, open_read E (S (ticks w)) NODES_FILE = Ok text
                          /\ yaml_safe_load E text = Raise e)
       \/ (exists text data, open_read E (S (ticks w)) NODES_FILE = Ok text
                             /\ yaml_safe_load E text = Ok data
                             /\ is_dict data = false)) :
  exists message w',
    main E w = (Ok [], w')
    /\ console w' = console w ++ [message]
    /\ log_lines w' = log_lines w
    /\ stats w' = stats w.
Proof.
  assert (Hload : exists message n,
             LOAD_NODES E NODES_FILE w
             = (Ok (PList []),
                mkWorld (console w ++ [message]) (log_lines w) n (stats w))).
  { destruct (os_path_exists E (ticks w) NODES_FILE) eqn:Hfound.
    2:{ eexists. eexists. apply LOAD_NODES_missing. exact Hfound. }
    destruct Hunusable as [H|[(e & H)|[(text & e & H & Hy)
                                      |(text & data & H & Hy & Hd)]]].
    - discriminate.
    - unfold LOAD_NODES, bind, ask, try_except, call, lift, emit, ret.
      simpl. rewrite Hfound. simpl. rewrite H.
      destruct (exn_cls e); eexists; eexists; reflexivity.
    - unfold LOAD_NODES, bind, ask, try_except, call, lift, emit, ret.
      simpl. rewrite Hfound. simpl. rewrite H, Hy.
      destruct (exn_cls e); eexists; eexists; reflexivity.
    - rewrite (LOAD_NODES_parsed E _ _ _ _ Hfound H Hy).
      destruct data; try discriminate; eexists; eexists; reflexivity. }
  destruct Hload as (message & n & Hload).
  exists message. eexists.
  unfold main. unfold bind at 1. rewrite Hload.
  split; [reflexivity|]. repeat split.
Qed.

Lemma main_loop_bounded (nodes : list pyval) :
  Forall (fun node => is_dict node = true) nodes ->
  forall all_stats w,
  exists out w',
    main_loop E nodes all_stats w = (Ok (all_stats ++ out), w')
    /\ List.length out <= List.length nodes.
Proof.
  induction 1 as [|node rest Hnode _ IH]; intros acc w.
  - exists [], w. simpl. rewrite app_nil_r. split; [reflexivity|lia].
  - destruct node; try discriminate.
    cbn [main_loop]. unfold bind. rewrite loop_body_run.
    destruct (dispatch E (PDict d) w) as [[stat|e] w1].
    + destruct (save_log E stat w1) as [[u|e] w2].
      * destruct (IH (acc ++ [stat]) w2) as (out & w' & Hrun & Hlen).
        exists (stat :: out), w'. rewrite Hrun, <- app_assoc.
        split; [reflexivity|simpl; lia].
      * destruct (IH acc (noticed (dict_get_or d "HOST_NAME" PNone) e w2))
          as (out & w' & Hrun & Hlen).
        exists out, w'. rewrite Hrun. split; [reflexivity|simpl; lia].
    + destruct (IH acc (noticed (dict_get_or d "HOST_NAME" PNone) e w1))
        as (out & w' & Hrun & Hlen).
      exists out, w'. rewrite Hrun. split; [reflexivity|simpl; lia].
Qed.

(** With a nodes file that holds a list of node records under "nodes",
    [main] never raises.  The log gains one line for each result
    gathered, in order, each the text of a record with status
    "success", and there are at most as many results as nodes. *)
Theorem main_on_records (text : string) (doc : pydict) (nodes : list pyval)
    (w : World)
    (Hfound : os_path_exists E (ticks w) NODES_FILE = true)
    (Hread : open_read E (S (ticks w)) NODES_FILE = Ok text)
    (Hload : yaml_safe_load E text = Ok (PDict doc))
    (Hnodes : dict_get doc "nodes" = Some (PList nodes))
    (Hrecords : Forall (fun node => is_dict node = true) nodes) :
  exists out texts w',
    main E w = (Ok out, w')
    /\ Forall2 (logged_success E) out texts
    /\ log_lines w' = log_lines w ++ map log_line texts
    /\ List.length out <= List.length nodes.
Proof.
  destruct (main_loop_run E nodes (tick (tick w)) Hrecords)
    as (out & texts & w' & Hrun & Hall & Hlog).
  destruct (main_loop_bounded nodes Hrecords [] (tick (tick w)))
    as (out' & w'' & Hrun' & Hlen).
  assert (out' = out) as ->.
  { specialize (Hrun []). simpl in *. congruence. }
  exists out, texts, w'. split; [|split; [exact Hall|split; [exact Hlog|]]].
  - unfold main. unfold bind at 1.
    rewrite (LOAD_NODES_parsed E _ _ _ _ Hfound Hread Hload).
    cbn [py_get]. unfold dict_get_or. rewrite Hnodes.
    unfold bind, lift. cbn [py_iter]. apply (Hrun []).
  - exact Hlen.
Qed.

(** When the value under "nodes" cannot be iterated (nothing, a number,
    a boolean), the [for] statement of [main] raises a type error outside
    every [try]: the run ends there, with nothing on the console and
    nothing written to the log. *)
Theorem main_nodes_not_iterable (text : string) (doc : pydict) (v : pyval)
    (e : exn) (w : World)
    (Hfound : os_path_exists E (ticks w) NODES_FILE = true)
    (Hread : open_read E (S (ticks w)) NODES_FILE = Ok text)
    (Hload : yaml_safe_load E text = Ok (PDict doc))
    (Hnodes : dict_get doc "nodes" = Some v)
    (Hiter : py_iter v = Raise e) :
  main E w = (Raise e, tick (tick w))
  /\ exn_cls e = TypeError.
Proof.
  split.
  - unfold main. unfold bind at 1.
    rewrite (LOAD_NODES_parsed E _ _ _ _ Hfound Hread Hload).
    cbn [py_get]. unfold dict_get_or. rewrite Hnodes.
    unfold bind, lift. now rewrite Hiter.
  - destruct v; simpl in Hiter; inversion Hiter; reflexivity.
Qed.

(** An entry of the node list that is not a record ends the run: the
    error notice itself calls [node.get], so the attribute error leaves
    the handler and the loop.  The nodes before it were handled as usual;
    the nodes after it are never reached. *)
Theorem non_record_entry_aborts
    (before after all_stats : list pyval) (v : pyval) (w : World)
    (Hbefore : Forall (fun node => is_dict node = true) before)
    (Hentry : is_dict v = false) :
  exists out w1,
    main_loop E before all_stats w = (Ok out, w1)
    /\ main_loop E (before ++ v :: after) all_stats w
       = (Raise (no_attribute v "get"), w1).
Proof.
  destruct (main_loop_run E before w Hbefore) as (out & texts & w1 & Hrun & _).
  exists (all_stats ++ out), w1. split; [apply Hrun|].
  rewrite main_loop_app, Hrun. cbn [main_loop]. unfold bind.
  assert (Hbody : loop_body E v (all_stats ++ out) w1
                  = (Raise (no_attribute v "get"), w1)).
  { destruct v; try reflexivity. discriminate. }
  now rewrite Hbody.
Qed.

(** *** The log file only grows *)

Lemma keeps_log_extends {A : Type} (m : M A) : keeps_log m -> extends_log m.
Proof. intros H w. exists []. rewrite app_nil_r. apply H. Qed.

Lemma extends_log_bind {A B : Type} (m : M A) (k : A -> M B) :
  extends_log m -> (forall a, extends_log (k a)) -> extends_log (bind m k).
Proof.
  intros Hm Hk w. unfold bind. destruct (Hm w) as (l1 & H1).
  destruct (m w) as [[a|e] w1]; simpl in *; [|eauto].
  destruct (Hk a w1) as (l2 & H2). exists (l1 ++ l2).
  now rewrite H2, H1, app_assoc.
Qed.

Lemma extends_log_try_except {A : Type} (m : M A) (h : exn -> M A) :
  extends_log m -> (forall e, extends_log (h e)) ->
  extends_log (try_except m h).
Proof.
  intros Hm Hh w. unfold try_except. destruct (Hm w) as (l1 & H1).
  destruct (m w) as [[a|e] w1]; simpl in *; [eauto|].
  destruct (Hh e w1) as (l2 & H2). exists (l1 ++ l2).
  now rewrite H2, H1, app_assoc.
Qed.

Lemma extends_log_save_log (stat : pyval) : extends_log (save_log E stat).
Proof.
  intros w. pose proof (save_log_outcome E stat w) as H.
  destruct (save_log E stat w) as [[u|e] w']; simpl.
  - destruct H as (text & _ & H). eauto.
  - exists []. now rewrite app_nil_r.
Qed.

Lemma extends_log_loop_body (node : pyval) (all_stats : list pyval) :
  extends_log (loop_body E node all_stats).
Proof.
  unfold loop_body. apply extends_log_try_except.
  - apply extends_log_bind; [apply keeps_log_extends, keeps_log_dispatch|].
    intros stat. apply extends_log_bind; [apply extends_log_save_log|].
    intros _. apply keeps_log_extends, keeps_log_ret.
  - intros e. apply keeps_log_extends. frame.
Qed.

Lemma extends_log_main_loop (nodes all_stats : list pyval) :
  extends_log (main_loop E nodes all_stats).
Proof.
  revert all_stats. induction nodes as [|node rest IH]; intros acc.
  - apply keeps_log_extends, keeps_log_ret.
  - cbn [main_loop]. apply extends_log_bind;
      [apply extends_log_loop_body|exact IH].
Qed.

(** Whatever the nodes file holds and whatever the outside world
    answers, also when the run ends by an exception, the log file after
    [main] is the log file before it with lines added at the end: no line
    is ever removed or rewritten. *)
Theorem main_only_appends (w : World) :
  exists added, log_lines (snd (main E w)) = log_lines w ++ added.
Proof.
  revert w. change (extends_log (main E)). unfold main.
  apply extends_log_bind;
    [apply keeps_log_extends, keeps_log_LOAD_NODES|].
  intros nodes. apply extends_log_bind;
    [apply keeps_log_extends, keeps_log_lift|].
  intros items. apply extends_log_main_loop.
Qed.

(** *** The sink *)

(** A failure of the sink is caught like a failure of the strategy: the
    notice names the node and carries the exception of the sink, the
    result is not added to the list, and the loop goes on with the nodes
    that follow. *)
Theorem sink_failure_is_isolated
    (d : pydict) (rest all_stats : list pyval) (stat : pyval) (e : exn)
    (w w1 w2 : World)
    (Hstrategy : dispatch E (PDict d) w = (Ok stat, w1))
    (Hsink : save_log E stat w1 = (Raise e, w2)) :
  let host_name := dict_get_or d "HOST_NAME" PNone in
  let w3 := noticed host_name e w2 in
  loop_body E (PDict d) all_stats w = (Ok all_stats, w3)
  /\ console w3 = console w2 ++ [ErrorProcessing host_name e]
  /\ main_loop E (PDict d :: rest) all_stats w = main_loop E rest all_stats w3.
Proof.
  intros host_name w3.
  assert (Hbody : loop_body E (PDict d) all_stats w = (Ok all_stats, w3)).
  { rewrite loop_body_run, Hstrategy, Hsink. reflexivity. }
  split; [exact Hbody|]. split; [reflexivity|].
  cbn [main_loop]. unfold bind. now rewrite Hbody.
Qed.

End WholeRun.

(* ================================================================== *)
(** ** Further properties: the strategies *)
(* ================================================================== *)

Section StrategyRuns.

Variable E : Env.

(** *** The console of a strategy *)

(** The strategy of a node record writes two things on the console and
    no more: the running indicator with its label, and one indicator
    with the time between the two readings of the clock, the success
    indicator exactly when the strategy returns.  The label is
    "Localhost" for the local strategy and the HOST_NAME of the node for
    the remote ones, "SSH Node" or "Netmiko Node" when the node has
    none. *)
Theorem strategy_console_protocol (d : pydict) (w : World) :
  let r := dispatch E (PDict d) w in
  let kind := dict_get_or d "DEVICE_TYPE" PNone in
  let label :=
    if py_eq_str kind "local" then PStr "Localhost"
    else if py_eq_str kind "ssh"
         then dict_get_or d "HOST_NAME" (PStr "SSH Node")
         else dict_get_or d "HOST_NAME" (PStr "Netmiko Node") in
  let elapsed :=
    (time_time E (pred (ticks (snd r))) - time_time E (ticks w))%Z in
  console (snd r)
  = console w ++ [Running label; Finished (returned_normally (fst r)) elapsed].
Proof.
  cbv zeta. rewrite dispatch_dict.
  destruct (py_eq_str (dict_get_or d "DEVICE_TYPE" PNone) "local").
  { destruct (RUN_LOCAL_run E w) as (st & Hrun & _). rewrite Hrun.
    cbn [fst snd exited console ticks returned_normally pred].
    now rewrite <- app_assoc. }
  destruct (py_eq_str (dict_get_or d "DEVICE_TYPE" PNone) "ssh").
  - rewrite RUN_SSH_COMMANDS_run. cbv zeta.
    match goal with
    | |- context [ssh_try E ?n ?x] =>
        pose proof (ssh_try_outcome E n x) as Hout;
        destruct (ssh_try E n x) as [[u|e] w']
    end; destruct Hout as (_ & Hc & _);
      cbn [fst snd exited tick console ticks returned_normally pred];
      rewrite Hc; unfold try_entry; cbn [console];
      now rewrite <- app_assoc.
  - rewrite RUN_NETMIKO_CONFIG_run. cbv zeta.
    match goal with
    | |- context [netmiko_try E ?n ?a ?b ?c ?p ?x] =>
        pose proof (netmiko_try_outcome E n a b c p x) as Hout;
        destruct (netmiko_try E n a b c p x) as [[u|e] w']
    end; destruct Hout as (_ & Hc & _);
      cbn [fst snd exited tick console ticks returned_normally pred];
      rewrite Hc; unfold try_entry; cbn [console];
      now rewrite <- app_assoc.
Qed.

(** *** The record of a strategy *)

Lemma local_metrics_cons (key cmd : string) (rest : list (string * string))
    (w : World) :
  local_metrics E ((key, cmd) :: rest) w =
  local_metrics E rest
    (mkWorld (console w) (log_lines w) (S (ticks w))
             (dict_set (stats w) key (PStr (metric_text E (ticks w) cmd)))).
Proof.
  cbn [local_metrics]. unfold bind at 1. now rewrite metric_step.
Qed.

Lemma RUN_LOCAL_by_metrics (w : World) :
  RUN_LOCAL E w =
  match local_metrics E COMMANDS
          (mkWorld (console w ++ [Running (PStr "Localhost")]) (log_lines w)
             (S (S (S (ticks w))))
             [(PStr "host", PStr (socket_gethostname E (S (ticks w))));
              (PStr "timestamp",
               PStr (timestamp_of (datetime_utcnow E (S (S (ticks w))))))])
  with
  | (Ok _, w1) =>
      (Ok (PDict (dict_set (stats w1) "status" (PStr "success"))),
       exited E true (time_time E (ticks w))
         (mkWorld (console w1) (log_lines w1) (ticks w1)
                  (dict_set (stats w1) "status" (PStr "success"))))
  | (Raise e, w1) => (Raise e, exited E false (time_time E (ticks w)) w1)
  end.
Proof.
  unfold RUN_LOCAL. unfold bind at 1. rewrite with_TaskTimer_run.
  unfold bind, ask, new_stats, set_stats, get_stats, ret, entered, tick.
  cbn [console log_lines ticks stats].
  match goal with
  | |- context [local_metrics E COMMANDS ?x] =>
      destruct (local_metrics E COMMANDS x) as [[u|e] w1]
  end; reflexivity.
Qed.

(** The record of the local strategy has nine entries, in this order:
    the name of the machine, the time stamp, the six metrics in the
    order of the catalog, each command run once, and the status. *)
Theorem local_record_shape (w : World) :
  let t := ticks w in
  fst (RUN_LOCAL E w) =
  Ok (PDict
        [(PStr "host", PStr (socket_gethostname E (S t)));
         (PStr "timestamp", PStr (timestamp_of (datetime_utcnow E (S (S t)))));
         (PStr "hostname", PStr (metric_text E (3 + t) "hostname"));
         (PStr "uptime", PStr (metric_text E (4 + t) "uptime -p"));
         (PStr "cpu_usage",
          PStr (metric_text E (5 + t)
                  "top -bn1 | grep '%Cpu' | awk '{print $2 + $4}'"));
         (PStr "memory",
          PStr (metric_text E (6 + t) "free -m | awk '/Mem:/ {print $2, $3}'"));
         (PStr "disk",
          PStr (metric_text E (7 + t)
                  "df -h / | awk 'NR==2 {print $2, $3, $5}'"));
         (PStr "ip_address",
          PStr (metric_text E (8 + t) "hostname -I | awk '{print $1}'"));
         (PStr "status", PStr "success")]).
Proof.
  intros t. rewrite RUN_LOCAL_by_metrics. unfold COMMANDS.
  do 6 (rewrite local_metrics_cons; cbn [console log_lines ticks stats]).
  reflexivity.
Qed.

(** The record of a remote strategy has three entries: the HOST_NAME of
    the node ("unknown" when it has none), the time stamp, and the
    status, "success" when the strategy returns and "fail: " with the
    message of the exception when it raises.  The record it returns is
    the record it has built. *)
Theorem remote_record_shape (d : pydict) (w : World) :
  let shape (r : result pyval * World) :=
    let record (status : string) : pydict :=
      [(PStr "host", dict_get_or d "HOST_NAME" (PStr "unknown"));
       (PStr "timestamp",
        PStr (timestamp_of (datetime_utcnow E (S (ticks w)))));
       (PStr "status", PStr status)] in
    match fst r with
    | Ok stat =>
        stat = PDict (record "success") /\ stats (snd r) = record "success"
    | Raise e => stats (snd r) = record ("fail: " ++ exn_msg e)%string
    end in
  shape (RUN_SSH_COMMANDS E (PDict d) w)
  /\ shape (RUN_NETMIKO_CONFIG E (PDict d) w).
Proof.
  cbv zeta. split.
  - rewrite RUN_SSH_COMMANDS_run. cbv zeta.
    match goal with
    | |- context [ssh_try E ?n ?x] =>
        pose proof (ssh_try_outcome E n x) as Hout;
        destruct (ssh_try E n x) as [[u|e] w']
    end; destruct Hout as (Hst & _);
      cbn [fst snd exited tick stats]; rewrite Hst; [split|]; reflexivity.
  - rewrite RUN_NETMIKO_CONFIG_run. cbv zeta.
    match goal with
    | |- context [netmiko_try E ?n ?a ?b ?c ?p ?x] =>
        pose proof (netmiko_try_outcome E n a b c p x) as Hout;
        destruct (netmiko_try E n a b c p x) as [[u|e] w']
    end; destruct Hout as (Hst & _);
      cbn [fst snd exited tick stats]; rewrite Hst; [split|]; reflexivity.
Qed.

(** *** The raw remote shell *)

Lemma ssh_exec_all_app (cmds1 cmds2 : list pyval) (w : World) :
  ssh_exec_all E (cmds1 ++ cmds2) w =
  match ssh_exec_all E cmds1 w with
  | (Ok _, w') => ssh_exec_all E cmds2 w'
  | (Raise e, w') => (Raise e, w')
  end.
Proof.
  revert w. induction cmds1 as [|cmd rest IH]; intros w; [reflexivity|].
  cbn [app ssh_exec_all]. unfold bind, call.
  destruct (ssh_exec_command E (ticks w) cmd); [|reflexivity].
  destruct (ssh_recv_exit_status E (ticks (tick w))); [|reflexivity].
  apply IH.
Qed.

Lemma ssh_exec_all_complete (cmds : list pyval) (w : World) :
  (forall i cmd,
      nth_error cmds i = Some cmd ->
      ssh_exec_command E (ticks w + 2 * i) cmd = Ok tt
      /\ exists code, ssh_recv_exit_status E (ticks w + 2 * i + 1) = Ok code) ->
  ssh_exec_all E cmds w
  = (Ok tt, mkWorld (console w) (log_lines w)
                    (ticks w + 2 * List.length cmds) (stats w)).
Proof.
  revert w. induction cmds as [|cmd rest IH]; intros w Hall.
  - simpl. rewrite Nat.add_0_r. now destruct w.
  - cbn [ssh_exec_all]. unfold bind, call.
    destruct (Hall 0 cmd eq_refl) as (Hexec & code & Hcode).
    rewrite Nat.add_0_r in Hexec. simpl in Hcode.
    rewrite Nat.add_0_r, Nat.add_1_r in Hcode.
    rewrite Hexec. cbn [tick ticks]. rewrite Hcode.
    rewrite IH.
    + cbn [tick console log_lines ticks stats]. do 2 f_equal. simpl. lia.
    + intros i cmd' Hi. cbn [tick ticks].
      destruct (Hall (S i) cmd' Hi) as (Hexec' & code' & Hcode').
      replace (S (S (ticks w)) + 2 * i) with (ticks w + 2 * S i) by lia.
      split; [exact Hexec'|]. exists code'. rewrite <- Hcode'. f_equal; lia.
Qed.

(** The commands of a node run one after the other, and the first one
    that fails, at its start or while waiting for its end, ends the
    loop with its exception: the commands after it are not run, whatever
    they are. *)
Theorem ssh_stops_at_first_failure
    (before : list pyval) (cmd : pyval) (e : exn) (w : World)
    (Hbefore : forall i c,
        nth_error before i = Some c ->
        ssh_exec_command E (ticks w + 2 * i) c = Ok tt
        /\ exists code,
             ssh_recv_exit_status E (ticks w + 2 * i + 1) = Ok code)
    (Hfails :
       let t := ticks w + 2 * List.length before in
       ssh_exec_command E t cmd = Raise e
       \/ (ssh_exec_command E t cmd = Ok tt
           /\ ssh_recv_exit_status E (S t) = Raise e)) :
  exists w',
    (forall after,
        ssh_exec_all E (before ++ cmd :: after) w = (Raise e, w'))
    /\ ticks w' <= ticks w + 2 * List.length before + 2
    /\ console w' = console w /\ log_lines w' = log_lines w
    /\ stats w' = stats w.
Proof.
  cbv zeta in Hfails.
  destruct Hfails as [Hexec|[Hexec Hwait]].
  - eexists. split.
    + intros after. rewrite ssh_exec_all_app.
      rewrite (ssh_exec_all_complete before w Hbefore).
      cbn [ssh_exec_all]. unfold bind, call. cbn [ticks].
      rewrite Hexec. reflexivity.
    + cbn [tick ticks console log_lines stats].
      repeat split; lia.
  - eexists. split.
    + intros after. rewrite ssh_exec_all_app.
      rewrite (ssh_exec_all_complete before w Hbefore).
      cbn [ssh_exec_all]. unfold bind, call. cbn [ticks].
      rewrite Hexec. cbn [tick ticks]. rewrite Hwait. reflexivity.
    + cbn [tick ticks console log_lines stats].
      repeat split; lia.
Qed.

(** When the node has its three credentials, the connection is made
    and every command is started and waited for, the strategy returns
    the record with status "success" after two external calls for each
    command and five more.  The exit status of a command plays no part:
    a command that ends with a status other than zero counts as
    complete. *)
Theorem ssh_all_commands_complete
    (d : pydict) (host user password : pyval) (cmds : list pyval) (w : World)
    (Hhost : dict_get d "HOST_NAME" = Some host)
    (Huser : dict_get d "USER_NAME" = Some user)
    (Hpassword : dict_get d "PASSWORD" = Some password)
    (Hconnect : ssh_connect E (2 + ticks w) host user password = Ok tt)
    (Hcmds : py_iter (dict_get_or d "COMMANDS" (PList [])) = Ok cmds)
    (Hall : forall i cmd,
        nth_error cmds i = Some cmd ->
        ssh_exec_command E (3 + ticks w + 2 * i) cmd = Ok tt
        /\ exists code,
             ssh_recv_exit_status E (3 + ticks w + 2 * i + 1) = Ok code) :
  exists w',
    RUN_SSH_COMMANDS E (PDict d) w
    = (Ok (PDict
             [(PStr "host", host);
              (PStr "timestamp",
               PStr (timestamp_of (datetime_utcnow E (S (ticks w)))));
              (PStr "status", PStr "success")]), w')
    /\ ticks w' = ticks w + 2 * List.length cmds + 5.
Proof.
  rewrite RUN_SSH_COMMANDS_run. cbv zeta.
  unfold ssh_try, bind, lift, call, set_stats. cbn [py_getitem py_get].
  rewrite Hhost, Huser, Hpassword.
  unfold try_entry at 1. cbn [ticks].
  change (2 + ticks w) with (S (S (ticks w))) in Hconnect.
  rewrite Hconnect, Hcmds.
  rewrite ssh_exec_all_complete.
  - eexists. split.
    + unfold try_entry, dict_get_or. rewrite Hhost. reflexivity.
    + cbn [exited tick ticks try_entry]. lia.
  - intros i cmd Hi. cbn [tick ticks try_entry]. apply (Hall i cmd Hi).
Qed.

(** A node without HOST_NAME, USER_NAME or PASSWORD makes the raw remote
    shell raise a key error for the first of them that is missing,
    before any connection is tried: the only external calls are the two
    readings of the timer, the reading of the UTC clock and the closing
    of the client.  The failure is recorded in the status. *)
Theorem ssh_missing_credential (d : pydict) (missing : string) (w : World)
    (Hmissing :
       (missing = "HOST_NAME" /\ dict_get d "HOST_NAME" = None)
       \/ (missing = "USER_NAME" /\ dict_get d "HOST_NAME" <> None
           /\ dict_get d "USER_NAME" = None)
       \/ (missing = "PASSWORD" /\ dict_get d "HOST_NAME" <> None
           /\ dict_get d "USER_NAME" <> None
           /\ dict_get d "PASSWORD" = None)) :
  let e := mkExn KeyError ("'" ++ missing ++ "'") in
  exists w',
    RUN_SSH_COMMANDS E (PDict d) w = (Raise e, w')
    /\ dict_get (stats w') "status" = Some (PStr ("fail: " ++ exn_msg e))
    /\ ticks w' = ticks w + 4.
Proof.
  cbv zeta. rewrite RUN_SSH_COMMANDS_run. cbv zeta.
  unfold ssh_try, bind, lift. cbn [py_getitem].
  destruct Hmissing as [[-> Hh]|[(-> & Hh & Hu)|(-> & Hh & Hu & Hp)]].
  - rewrite Hh. eexists. split; [reflexivity|]. split.
    + apply dict_get_set_same.
    + cbn [exited tick ticks try_entry]. lia.
  - destruct (dict_get d "HOST_NAME"); [|congruence]. rewrite Hu.
    eexists. split; [reflexivity|]. split.
    + apply dict_get_set_same.
    + cbn [exited tick ticks try_entry]. lia.
  - destruct (dict_get d "HOST_NAME"); [|congruence].
    destruct (dict_get d "USER_NAME"); [|congruence]. rewrite Hp.
    eexists. split; [reflexivity|]. split.
    + apply dict_get_set_same.
    + cbn [exited tick ticks try_entry]. lia.
Qed.

(** *** The managed device *)

(** The managed-device strategy makes its four calls in order and stops
    at the first that raises: connecting, sending the configuration
    commands, saving, disconnecting.  A node without credentials is
    still tried, with nothing in their place.  When sending or saving
    raises, the disconnection is not called: the count of external
    calls, two for the timer and one for the clock included, is five or
    six instead of seven. *)
Theorem netmiko_steps (d : pydict) (w : World) :
  let t := 2 + ticks w in
  let connect :=
    netmiko_ConnectHandler E t
      (dict_get_or d "DEVICE_TYPE" PNone) (dict_get_or d "HOST_NAME" PNone)
      (dict_get_or d "USER_NAME" PNone) (dict_get_or d "PASSWORD" PNone) in
  let send :=
    netmiko_send_config_set E (1 + t)
      (dict_get_or d "CONFIG_COMMANDS" (PList [])) in
  let outcome (made : nat) (r : result unit) :=
    exists w',
      ticks w' = ticks w + made
      /\ match r with
         | Ok _ =>
             exists st,
               RUN_NETMIKO_CONFIG E (PDict d) w = (Ok (PDict st), w')
               /\ dict_get st "status" = Some (PStr "success")
         | Raise e =>
             RUN_NETMIKO_CONFIG E (PDict d) w = (Raise e, w')
             /\ dict_get (stats w') "status"
                = Some (PStr ("fail: " ++ exn_msg e))
         end in
  match connect with
  | Raise e => outcome 4 (Raise e)
  | Ok _ =>
      match send with
      | Raise e => outcome 5 (Raise e)
      | Ok _ =>
          match netmiko_save_config E (2 + t) with
          | Raise e => outcome 6 (Raise e)
          | Ok _ =>
              match netmiko_disconnect E (3 + t) with
              | Raise e => outcome 7 (Raise e)
              | Ok _ => outcome 7 (Ok tt)
              end
          end
      end
  end.
Proof.
  cbv zeta. rewrite RUN_NETMIKO_CONFIG_run. cbv zeta.
  unfold netmiko_try, bind, lift, call, set_stats. cbn [py_get].
  unfold try_entry. cbn [tick ticks Nat.add console log_lines stats].
  destruct (netmiko_ConnectHandler E (S (S (ticks w))) _ _ _ _).
  2:{ eexists. split; [|split; [reflexivity|apply dict_get_set_same]].
      cbn [exited tick ticks]. lia. }
  destruct (netmiko_send_config_set E (S (S (S (ticks w)))) _).
  2:{ eexists. split; [|split; [reflexivity|apply dict_get_set_same]].
      cbn [exited tick ticks]. lia. }
  destruct (netmiko_save_config E (S (S (S (S (ticks w)))))).
  2:{ eexists. split; [|split; [reflexivity|apply dict_get_set_same]].
      cbn [exited tick ticks]. lia. }
  destruct (netmiko_disconnect E (S (S (S (S (S (ticks w))))))).
  2:{ eexists. split; [|split; [reflexivity|apply dict_get_set_same]].
      cbn [exited tick ticks]. lia. }
  eexists. split; [|eexists; split; [reflexivity|apply dict_get_set_same]].
  cbn [exited tick ticks]. lia.
Qed.

(** *** The loop in two parts *)

(** Running the loop over a list of node records is running it over a
    first part, then over the rest from the state the first part has
    left: the results are those of the first part followed by those of
    the rest. *)
Theorem loop_in_batches (nodes1 nodes2 : list pyval) (w : World)
    (Hnodes1 : Forall (fun node => is_dict node = true) nodes1)
    (Hnodes2 : Forall (fun node => is_dict node = true) nodes2) :
  exists out1 w1 out2 w2,
    main_loop E nodes1 [] w = (Ok out1, w1)
    /\ main_loop E nodes2 [] w1 = (Ok out2, w2)
    /\ main_loop E (nodes1 ++ nodes2) [] w = (Ok (out1 ++ out2), w2).
Proof.
  destruct (main_loop_run E nodes1 w Hnodes1) as (out1 & t1 & w1 & Hrun1 & _).
  destruct (main_loop_run E nodes2 w1 Hnodes2) as (out2 & t2 & w2 & Hrun2 & _).
  exists out1, w1, out2, w2. split; [apply (Hrun1 [])|].
  split; [apply (Hrun2 [])|].
  now rewrite main_loop_app, (Hrun1 []), Hrun2.
Qed.

End StrategyRuns.

(* ================================================================== *)
(** ** Further properties: text and time stamps *)
(* ================================================================== *)

Lemma lstrip_split (s : string) :
  exists l, s = (l ++ lstrip s)%string /\ all_space l = true.
Proof.
  induction s as [|c rest (l & Hl & Hs)]; [now exists ""|].
  simpl. destruct (isspace c) eqn:Hc.
  - exists (String c l). simpl. rewrite Hc, Hs.
    split; [now f_equal|reflexivity].
  - exists "". split; reflexivity.
Qed.

Lemma rstrip_split (s : string) :
  exists r, s = (rstrip s ++ r)%string /\ all_space r = true.
Proof.
  induction s as [|c rest (r & Hr & Hs)]; [now exists ""|].
  simpl. destruct (rstrip rest) as [|c' kept] eqn:Hrest.
  - simpl in Hr. subst rest.
    destruct (isspace c) eqn:Hc.
    + exists (String c r). simpl. now rewrite Hc, Hs.
    + exists r. split; [reflexivity|exact Hs].
  - exists r. simpl. split; [|exact Hs]. f_equal. exact Hr.
Qed.

(** What [strip] removes is white space at the two ends and nothing
    else, and it removes all of it: a stored metric is the decoded
    output of its command between a run of white space on the left and
    one on the right, and stripping it again changes nothing. *)
Theorem strip_removes_outer_space (s : string) :
  exists l r,
    s = (l ++ strip s ++ r)%string
    /\ all_space l = true /\ all_space r = true
    /\ lstrip (strip s) = strip s
    /\ rstrip (strip s) = strip s.
Proof.
  destruct (lstrip_split s) as (l & Hl & Hls).
  destruct (rstrip_split (lstrip s)) as (r & Hr & Hrs).
  exists l, r. unfold strip.
  split; [now rewrite <- Hr|]. split; [exact Hls|]. split; [exact Hrs|].
  apply strip_trimmed.
Qed.

Lemma digits_fixed_length (w : nat) (n : N) (acc : string) :
  String.length (digits_fixed w n acc) = w + String.length acc.
Proof.
  revert n acc. induction w as [|w IH]; intros n acc; simpl; [reflexivity|].
  rewrite IH. simpl. lia.
Qed.

(** Time stamps tell clock readings apart: two readings with the same
    time stamp are the same reading, to the microsecond.  A time stamp
    has 20 characters on a whole second and 27 otherwise. *)
Theorem timestamp_of_injective (dt1 dt2 : datetime)
    (Hok1 : datetime_ok dt1 = true) (Hok2 : datetime_ok dt2 = true) :
  (timestamp_of dt1 = timestamp_of dt2 -> dt1 = dt2)
  /\ String.length (timestamp_of dt1)
     = if (microsecond dt1 =? 0)%N then 20 else 27.
Proof.
  split.
  - intros Heq.
    pose proof (timestamp_roundtrip dt1 Hok1) as H1.
    pose proof (timestamp_roundtrip dt2 Hok2) as H2.
    rewrite Heq, H2 in H1. congruence.
  - rewrite (timestamp_of_fixed dt1 Hok1).
    repeat (rewrite digits_fixed_length; cbn [String.length]).
    destruct (microsecond dt1 =? 0)%N; [reflexivity|].
    cbn [String.length]. rewrite digits_fixed_length. reflexivity.
Qed.

(* ================================================================== *)
(** ** The properties on the sample world *)
(* ================================================================== *)

Import Sample.

(** The whole run: three results, one error notice, three log lines. *)
Example main_on_sample :
  let (r, w) := main env start in
  match r with
  | Ok all_stats => List.length all_stats = 3
  | Raise _ => False
  end
  /\ List.length (log_lines w) = 3
  /\ In (ErrorProcessing (PStr "10.0.0.9")
           (mkExn OSError "[Errno 113] No route to host")) (console w).
Proof. vm_compute. repeat split. tauto. Qed.

(** An entry of the node list that is not a record is outside the
    properties of the loop: the error notice itself needs [node.get]. *)
Remark loop_body_on_a_string (E : Env) (w : World) :
  fst (loop_body E (PStr "pi") [] w)
  = Raise (no_attribute (PStr "pi") "get").
Proof. reflexivity. Qed.

Lemma LOAD_NODES_total_witness :
  exists w', LOAD_NODES env "missing.yaml" start = (Ok (PList []), w').
Proof.
  destruct (LOAD_NODES_total env "missing.yaml" start)
    as (v & w' & Hrun & Hmissing & _).
  exists w'. rewrite Hrun, (Hmissing eq_refl). reflexivity.
Defined.

Lemma LOAD_NODES_shapes_witness :
  (exists w', LOAD_NODES env "empty.yaml" start = (Ok (PList []), w'))
  /\ (exists w', LOAD_NODES env NODES_FILE start = (Ok (PList fleet), w')).
Proof.
  split.
  - apply (proj1 (LOAD_NODES_shapes env "empty.yaml" "" start
                    eq_refl eq_refl)).
    reflexivity.
  - apply (proj2 (proj2 (LOAD_NODES_shapes env NODES_FILE "nodes: [...]" start
                           eq_refl eq_refl))
             [(PStr "nodes", PList fleet)]); reflexivity.
Defined.

Lemma dispatch_by_device_kind_witness :
  dispatch env local_node start = RUN_LOCAL env start
  /\ dispatch env ssh_node start = RUN_SSH_COMMANDS env ssh_node start
  /\ dispatch env switch_node start = RUN_NETMIKO_CONFIG env switch_node start
  /\ dispatch env (PDict []) start = RUN_NETMIKO_CONFIG env (PDict []) start.
Proof.
  split; [|split; [|split]].
  - apply (proj1 (dispatch_by_device_kind env local_record start)).
    reflexivity.
  - apply (proj1 (proj2 (dispatch_by_device_kind env ssh_record start))).
    reflexivity.
  - apply (proj1 (proj2 (proj2
             (dispatch_by_device_kind env switch_record start))));
      discriminate.
  - apply (proj2 (proj2 (proj2 (dispatch_by_device_kind env [] start)))).
    reflexivity.
Defined.

Lemma local_node_always_succeeds_witness :
  exists st w',
    dispatch env local_node start = (Ok (PDict st), w')
    /\ dict_get st "status" = Some (PStr "success").
Proof.
  destruct (local_node_always_succeeds env local_record start eq_refl)
    as (st & w' & Hrun & _ & Hstatus & _).
  exists st, w'. split; assumption.
Defined.


Lemma node_failure_is_isolated_witness :
  (exists out w', main_loop env fleet [] start = (Ok out, w'))
  /\ main_loop env fleet [] start
     = main_loop env [switch_node; ssh_node] (fst after_local)
         (noticed (PStr "10.0.0.9") no_route dead_end)
  /\ console (noticed (PStr "10.0.0.9") no_route dead_end)
     = console dead_end ++ [ErrorProcessing (PStr "10.0.0.9") no_route].
Proof.
  assert (Hfleet : Forall (fun node => is_dict node = true) fleet)
    by (repeat constructor).
  split.
  - apply (proj1 (node_failure_is_isolated env fleet [] start Hfleet)).
  - destruct (proj2 (node_failure_is_isolated env fleet [] start Hfleet)
                [local_node] dead_record [switch_node; ssh_node]
                (fst after_local) (snd after_local) no_route dead_end)
      as (Hnotice & _ & Hrest).
    + reflexivity.
    + vm_compute. reflexivity.
    + vm_compute. reflexivity.
    + split; [exact Hrest|exact Hnotice].
Defined.

Lemma failed_node_leaves_no_record_witness :
  exists w',
    loop_body env dead_node [] start = (Ok [], w')
    /\ log_lines w' = [].
Proof.
  eapply (proj1 (failed_node_leaves_no_record env) dead_record [] start).
  reflexivity.
Defined.

Lemma results_follow_node_order_witness :
  exists out idx texts w',
    main_loop env fleet [] start = (Ok out, w')
    /\ StronglySorted lt idx
    /\ Forall2 (produced_by env fleet start) idx out
    /\ Forall2 (fun stat text => json_dumps env stat = Ok text) out texts
    /\ log_lines w' = map log_line texts
    /\ exists j,
         nth_error idx j = Some 0
         /\ nth_error out j = Some Faults.local_stat.
Proof.
  destruct (results_follow_node_order env fleet start)
    as (out & idx & texts & w' & Hrun & Hsorted & Hprod & Htexts & Hlog
        & Hcomplete); [repeat constructor|].
  exists out, idx, texts, w'. repeat (split; [assumption|]).
  apply (Hcomplete 0 local_node Faults.local_stat Faults.after_strategy
           (snd after_local)).
  - reflexivity.
  - vm_compute. reflexivity.
  - vm_compute. reflexivity.
Defined.

Lemma timestamp_is_utc_iso8601_witness :
  dict_get (stats (snd (RUN_SSH_COMMANDS env_noon ssh_node start))) "timestamp"
  = Some (PStr (timestamp_of noon))
  /\ parse_timestamp (timestamp_of noon) = Some (noon, 0).
Proof.
  apply (timestamp_is_utc_iso8601 env_noon ssh_record start).
  intros t. reflexivity.
Defined.

(** C8 as the specification states it, millisecond precision or
    better in every time stamp, fails when the clock stands on a whole
    second: the time stamp of the result of [RUN_LOCAL] is then
    "2024-05-17T12:00:00Z", a valid time stamp with no fraction of a
    second at all. *)
Lemma timestamp_without_fraction :
  (forall t, datetime_ok (datetime_utcnow env_noon t) = true)
  /\ dict_get (stats (snd (RUN_LOCAL env_noon start))) "timestamp"
     = Some (PStr "2024-05-17T12:00:00Z")
  /\ parse_timestamp "2024-05-17T12:00:00Z" = Some (noon, 0)
  /\ millisecond_or_better "2024-05-17T12:00:00Z" = false.
Proof. repeat split. Qed.

(* ================================================================== *)
(** ** The further properties on the sample worlds *)
(* ================================================================== *)

Import Faults.

Lemma LOAD_NODES_reports_by_class_witness :
  LOAD_NODES env_bad_yaml NODES_FILE start
  = (Ok (PList []),
     mkWorld [YamlErrorIn NODES_FILE bad_yaml] [] 2 []).
Proof.
  apply (LOAD_NODES_reports_by_class env_bad_yaml NODES_FILE start bad_yaml).
  - reflexivity.
  - right. exists "a: b: c". split; reflexivity.
Defined.

Lemma LOAD_NODES_not_a_mapping_witness :
  LOAD_NODES env_top_level_list NODES_FILE start
  = (Ok (PList []),
     mkWorld [UnexpectedLoadError (no_attribute (PList [PStr "a"]) "get")]
             [] 2 []).
Proof.
  apply (LOAD_NODES_not_a_mapping env_top_level_list NODES_FILE "- a"
           (PList [PStr "a"]) start); reflexivity.
Defined.

Lemma main_without_nodes_witness :
  exists message w',
    main env_bad_yaml start = (Ok [], w')
    /\ console w' = [message] /\ log_lines w' = [] /\ stats w' = [].
Proof.
  apply (main_without_nodes env_bad_yaml start).
  right. right. left. exists "a: b: c", bad_yaml. split; reflexivity.
Defined.

Lemma main_on_records_witness :
  exists out texts w',
    main env start = (Ok out, w')
    /\ Forall2 (logged_success env) out texts
    /\ log_lines w' = map log_line texts
    /\ List.length out <= 4.
Proof.
  apply (main_on_records env "nodes: [...]" [(PStr "nodes", PList fleet)]
           fleet start); try reflexivity.
  repeat constructor.
Defined.

Lemma main_nodes_not_iterable_witness :
  main env_nodes_null start
  = (Raise (mkExn TypeError "'NoneType' object is not iterable"),
     tick (tick start)).
Proof.
  apply (main_nodes_not_iterable env_nodes_null "nodes:"
           [(PStr "nodes", PNone)] PNone); reflexivity.
Defined.

Lemma non_record_entry_aborts_witness :
  exists out w1,
    main_loop env [local_node] [] start = (Ok out, w1)
    /\ main_loop env ([local_node] ++ PStr "pi" :: [ssh_node]) [] start
       = (Raise (no_attribute (PStr "pi") "get"), w1).
Proof.
  apply (non_record_entry_aborts env [local_node] [ssh_node] [] (PStr "pi")
           start).
  - repeat constructor.
  - reflexivity.
Defined.

Lemma sink_failure_is_isolated_witness :
  loop_body env_disk_full local_node [] start
  = (Ok [], noticed (PStr "pi") disk_full after_sink)
  /\ console (noticed (PStr "pi") disk_full after_sink)
     = console after_sink ++ [ErrorProcessing (PStr "pi") disk_full].
Proof.
  destruct (sink_failure_is_isolated env_disk_full local_record [] []
              local_stat disk_full start after_strategy after_sink)
    as (Hbody & Hnotice & _).
  - vm_compute. reflexivity.
  - vm_compute. reflexivity.
  - split; [exact Hbody|exact Hnotice].
Defined.

Lemma ssh_stops_at_first_failure_witness :
  exists w',
    (forall after,
        ssh_exec_all env_broken_shell
          ([PStr "uptime"] ++ PStr "df -h" :: after) start
        = (Raise broken_pipe, w'))
    /\ ticks w' <= 4
    /\ console w' = [] /\ log_lines w' = [] /\ stats w' = [].
Proof.
  apply (ssh_stops_at_first_failure env_broken_shell [PStr "uptime"]
           (PStr "df -h") broken_pipe start).
  - intros [|[|i]] c Hc; simpl in Hc; inversion Hc.
    split; [reflexivity|]. exists 1%Z. reflexivity.
  - left. reflexivity.
Defined.

Lemma ssh_all_commands_complete_witness :
  exists w',
    RUN_SSH_COMMANDS env_broken_shell (PDict uptime_record) start
    = (Ok (PDict [(PStr "host", PStr "10.0.0.3");
                  (PStr "timestamp", PStr "2024-05-17T12:00:00.000250Z");
                  (PStr "status", PStr "success")]), w')
    /\ ticks w' = 7.
Proof.
  apply (ssh_all_commands_complete env_broken_shell uptime_record
           (PStr "10.0.0.3") (PStr "admin") (PStr "secret") [PStr "uptime"]
           start); try reflexivity.
  intros [|[|i]] c Hc; simpl in Hc; inversion Hc.
  split; [reflexivity|]. exists 1%Z. reflexivity.
Defined.

Lemma ssh_missing_credential_witness :
  exists w',
    RUN_SSH_COMMANDS env (PDict no_password_record) start
    = (Raise (mkExn KeyError "'PASSWORD'"), w')
    /\ dict_get (stats w') "status" = Some (PStr "fail: 'PASSWORD'")
    /\ ticks w' = 4.
Proof.
  apply (ssh_missing_credential env no_password_record "PASSWORD" start).
  right. right. repeat split; discriminate.
Defined.

Lemma loop_in_batches_witness :
  exists out1 w1 out2 w2,
    main_loop env [local_node; dead_node] [] start = (Ok out1, w1)
    /\ main_loop env [switch_node; ssh_node] [] w1 = (Ok out2, w2)
    /\ main_loop env fleet [] start = (Ok (out1 ++ out2), w2).
Proof.
  apply (loop_in_batches env [local_node; dead_node] [switch_node; ssh_node]
           start); repeat constructor.
Defined.

Lemma timestamp_of_injective_witness :
  (timestamp_of noon = timestamp_of just_after_noon -> noon = just_after_noon)
  /\ String.length (timestamp_of noon) = 20.
Proof.
  apply (timestamp_of_injective noon just_after_noon); reflexivity.
Defined.
